(** * Booking bot: a shallow embedding of [main.py] and its properties

    The bot is a thin layer over three collaborators: the calendar
    ([datetime.date]), one SQLite table ([bookings]) and the
    python-telegram-bot dispatcher.  Each of them is modelled here only as
    far as [main.py] uses it; the functions of [main.py] themselves are
    transcribed statement by statement in a small state-and-exception
    monad. *)

From Stdlib Require Import Ascii.
From stdpp Require Import gmap strings list fin_maps pretty sorting.

Local Open Scope string_scope.
Local Open Scope Z_scope.

(** ** Text helpers *)

Definition nl : string := String (Ascii.ascii_of_nat 10) EmptyString.

(** U+2013 as the three bytes of its UTF-8 encoding. *)
Definition en_dash : string :=
  String (Ascii.ascii_of_nat 226)
    (String (Ascii.ascii_of_nat 128)
       (String (Ascii.ascii_of_nat 147) EmptyString)).

Definition is_colon (a : ascii) : bool := Ascii.eqb a ":"%char.

(** [str.split(':')]: the pieces between the colons, in order; a string
    without a colon is its own single piece. *)
Fixpoint split_colon (s : string) : list string :=
  match s with
  | EmptyString => [EmptyString]
  | String a rest =>
      if is_colon a then EmptyString :: split_colon rest
      else match split_colon rest with
           | [] => [String a EmptyString]
           | piece :: pieces => String a piece :: pieces
           end
  end.

(** The part of a string before its first colon (all of it when there is
    none). *)
Fixpoint before_colon (s : string) : string :=
  match s with
  | EmptyString => EmptyString
  | String a rest => if is_colon a then EmptyString else String a (before_colon rest)
  end.

Fixpoint colon_free (s : string) : bool :=
  match s with
  | EmptyString => true
  | String a rest => negb (is_colon a) && colon_free rest
  end.

(** [re.match(r'^date:', data)] *)
Definition matches_date_pattern (data : string) : bool :=
  String.prefix "date:" data.

(** ["%0<width>d"] for a non-negative number. *)
Definition zfill (width : nat) (n : Z) : string :=
  let digits := pretty n in
  String.concat EmptyString (replicate (width - String.length digits)%nat "0") +:+ digits.

(** Python truthiness of a [str]. *)
Definition truthy (s : string) : bool :=
  match s with EmptyString => false | _ => true end.

(** ** Calendar: [datetime.date] and [datetime.datetime]

    A [date] is held as its proleptic Gregorian ordinal
    ([date.toordinal()], day 1 being 0001-01-01).  CPython's own
    arithmetic and [weekday()] go through the ordinal, and comparison of
    dates agrees with comparison of ordinals. *)

Module PyDate.

Definition date := Z.

Definition MAXORDINAL : Z := 3652059.   (* date(9999, 12, 31).toordinal() *)

Definition in_range (d : date) : bool := (1 <=? d) && (d <=? MAXORDINAL).

Definition is_leap (year : Z) : bool :=
  (year mod 4 =? 0) && (negb (year mod 100 =? 0) || (year mod 400 =? 0)).

Definition days_before_year (year : Z) : Z :=
  let y := year - 1 in y * 365 + y / 4 - y / 100 + y / 400.

Definition DAYS_IN_MONTH : list Z :=
  [31; 28; 31; 30; 31; 30; 31; 31; 30; 31; 30; 31].

Definition days_in_month_raw (month : Z) : Z :=
  default 0 (DAYS_IN_MONTH !! Z.to_nat (month - 1)).

Definition DAYS_BEFORE_MONTH (month : Z) : Z :=
  foldr Z.add 0 (take (Z.to_nat (month - 1)) DAYS_IN_MONTH).

Definition days_before_month (year month : Z) : Z :=
  DAYS_BEFORE_MONTH month + (if (2 <? month) && is_leap year then 1 else 0).

(** [date(year, month, day).toordinal()] *)
Definition ymd2ord (year month day : Z) : date :=
  days_before_year year + days_before_month year month + day.

(** [date.fromordinal(n)] read back as (year, month, day). *)
Definition ord2ymd (n0 : date) : Z * Z * Z :=
  let n := n0 - 1 in
  let n400 := n / 146097 in let n := n mod 146097 in
  let year := n400 * 400 + 1 in
  let n100 := n / 36524 in let n := n mod 36524 in
  let n4 := n / 1461 in let n := n mod 1461 in
  let n1 := n / 365 in let n := n mod 365 in
  let year := year + n100 * 100 + n4 * 4 + n1 in
  if (n1 =? 4) || (n100 =? 4) then (year - 1, 12, 31)
  else
    let leapyear := (n1 =? 3) && (negb (n4 =? 24) || (n100 =? 3)) in
    let month := Z.shiftr (n + 50) 5 in
    let preceding :=
      DAYS_BEFORE_MONTH month + (if (2 <? month) && leapyear then 1 else 0) in
    if n <? preceding then
      let month := month - 1 in
      let preceding :=
        preceding - (days_in_month_raw month
                     + (if (month =? 2) && leapyear then 1 else 0)) in
      (year, month, n - preceding + 1)
    else (year, month, n - preceding + 1).

(** [date.weekday()]: Monday is 0, Sunday is 6. *)
Definition weekday (d : date) : Z := (d + 6) mod 7.

(** [date.isoformat()] *)
Definition isoformat (d : date) : string :=
  let '(y, m, dd) := ord2ymd d in
  zfill 4 y +:+ "-" +:+ zfill 2 m +:+ "-" +:+ zfill 2 dd.

Record datetime := {
  dt_date : date;          (* [.date()] *)
  dt_second : Z;           (* seconds since midnight *)
  dt_microsecond : Z
}.

(** [datetime.isoformat()] *)
Definition dt_isoformat (t : datetime) : string :=
  let s := dt_second t in
  isoformat (dt_date t) +:+ "T" +:+ zfill 2 (s / 3600) +:+ ":"
    +:+ zfill 2 ((s / 60) mod 60) +:+ ":" +:+ zfill 2 (s mod 60)
    +:+ (if dt_microsecond t =? 0 then EmptyString
         else "." +:+ zfill 6 (dt_microsecond t)).

End PyDate.

Import PyDate.

(** ** The [bookings] table

    One row per booking, in insertion order.  The [id] column is
    [INTEGER PRIMARY KEY AUTOINCREMENT]: SQLite hands out one more than the
    largest id the table has ever held, which it remembers in
    [sqlite_sequence].  Ids are unbounded integers here; SQLite's 64-bit
    ceiling is out of reach of this program. *)

Record Booking := {
  b_id : Z;
  b_user_id : Z;
  b_username : string;
  b_date : string;
  b_status : string;
  b_doc_file_id : string;
  b_doc_file_name : option string;
  b_created_at : string
}.

Record DB := {
  rows : list Booking;
  sqlite_sequence : Z
}.

Definition empty_db : DB := {| rows := []; sqlite_sequence := 0 |}.

Definition max_rowid (bs : list Booking) : Z := foldr Z.max 0 (b_id <$> bs).

Definition next_rowid (d : DB) : Z := Z.max (sqlite_sequence d) (max_rowid (rows d)) + 1.

(** [INSERT INTO bookings (...) VALUES (...)] followed by [cur.lastrowid]. *)
Definition sql_insert (mk : Z → Booking) (d : DB) : Z * DB :=
  let rowid := next_rowid d in
  (rowid, {| rows := rows d ++ [mk rowid]; sqlite_sequence := rowid |}).

(** [SELECT COUNT( * ) FROM bookings WHERE date = ? AND status = 'APPROVED'] *)
Definition sql_count_approved (date_str : string) (d : DB) : Z :=
  Z.of_nat (length (filter (λ b, b_date b = date_str ∧ b_status b = "APPROVED") (rows d))).

(** [SELECT COUNT( * ) FROM bookings WHERE user_id = ? AND date = ?] *)
Definition sql_count_user_date (user_id : Z) (date_str : string) (d : DB) : Z :=
  Z.of_nat (length (filter (λ b, b_user_id b = user_id ∧ b_date b = date_str) (rows d))).

(** ** Telegram objects, as far as the handlers read them *)

Record User := {
  id : Z;
  username : option string;
  full_name : string
}.

Record Document := {
  file_id : string;
  file_name : option string
}.

Record PhotoSize := { photo_file_id : string }.

(** A message carries text, or a document, or a photo (a list of sizes),
    never two of them.  [command] is the lower-cased name of the bot
    command the text starts with, when it starts with one (a command
    addressed to another bot by an [@name] suffix is not represented). *)
Inductive Content :=
  | TextContent (text : string) (command : option string)
  | DocumentContent (doc : Document)
  | PhotoContent (sizes : list PhotoSize)
  | OtherContent.

Record Message := {
  from_user : User;
  chat_id : Z;
  content : Content
}.

Definition document (m : Message) : option Document :=
  match content m with DocumentContent d => Some d | _ => None end.

Definition photo (m : Message) : list PhotoSize :=
  match content m with PhotoContent sizes => sizes | _ => [] end.

Definition message_command (m : Message) : option string :=
  match content m with TextContent _ c => c | _ => None end.

Record CallbackQuery := {
  cq_from_user : User;
  cq_chat_id : Z;
  cq_data : option string
}.

Inductive Update :=
  | MessageUpdate (m : Message)
  | CallbackQueryUpdate (q : CallbackQuery).

Record InlineKeyboardButton := {
  button_text : string;
  callback_data : string
}.

Definition InlineKeyboardMarkup := list (list InlineKeyboardButton).

(** Calls to the Bot API. *)
Inductive Action :=
  | ReplyText (chat : Z) (text : string) (reply_markup : option InlineKeyboardMarkup)
  | AnswerCallbackQuery (chat : Z)
  | EditMessageText (chat : Z) (text : string)
  | SendMessage (chat : Z) (text : string)
  | SendDocument (chat : Z) (doc : string) (filename : option string)
                 (reply_markup : InlineKeyboardMarkup).

Inductive Event :=
  | Sent (a : Action)
  | SendFailed (a : Action)
  | Logged (text : string).

(** ** The world the handlers run in *)

(** What one update's handling finds outside the program: the
    configuration; the UTC clock (its n-th reading); [int(t.timestamp())]
    as this machine computes it for a naive [t] (its local time zone and
    its floating point are the platform's); whether the two sends to the
    administrator go through, the text of the error they raise when they
    do not, and whether the reply sent to the user after such an error goes
    through in its turn.  The other calls of the Bot API are taken to
    succeed; of the SQLite calls, the insert fails where a value does not
    fit. *)
Record Env := {
  ADMIN_ID : Z;
  clock : nat → datetime;
  int_timestamp : datetime → Z;
  send_message_ok : bool;
  send_document_ok : bool;
  transport_error : string;
  failure_reply_ok : bool
}.

Record World := {
  db : DB;
  user_data : gmap Z (gmap string string);     (* [context.user_data], per user id *)
  conversations : gmap (Z * Z) Z;              (* state per (chat id, user id) *)
  trace : list Event;
  clock_reads : nat
}.

Definition set_db (d : DB) (w : World) : World :=
  {| db := d; user_data := user_data w; conversations := conversations w;
     trace := trace w; clock_reads := clock_reads w |}.

Definition set_user_data (ud : gmap Z (gmap string string)) (w : World) : World :=
  {| db := db w; user_data := ud; conversations := conversations w;
     trace := trace w; clock_reads := clock_reads w |}.

Definition set_conversations (c : gmap (Z * Z) Z) (w : World) : World :=
  {| db := db w; user_data := user_data w; conversations := c;
     trace := trace w; clock_reads := clock_reads w |}.

Definition add_event (e : Event) (w : World) : World :=
  {| db := db w; user_data := user_data w; conversations := conversations w;
     trace := trace w ++ [e]; clock_reads := clock_reads w |}.

Definition tick (w : World) : World :=
  {| db := db w; user_data := user_data w; conversations := conversations w;
     trace := trace w; clock_reads := S (clock_reads w) |}.

(** ** State and exceptions *)

Inductive exn :=
  | IndexError
  | AttributeError
  | OverflowError
  | OperationalError                  (* [sqlite3.OperationalError] *)
  | TelegramError (message : string). (* [telegram.error.TelegramError] *)

(** [str(e)], where the program reads it. *)
Definition exn_text (e : exn) : string :=
  match e with
  | TelegramError message => message
  | _ => EmptyString
  end.

Inductive outcome (A : Type) :=
  | Ok (a : A)
  | Raise (e : exn).
Arguments Ok {A} a.
Arguments Raise {A} e.

Definition M (A : Type) : Type := World → outcome A * World.

Global Instance M_ret : MRet M := λ A a w, (Ok a, w).

Global Instance M_bind : MBind M := λ A B f m w,
  match m w with
  | (Ok a, w') => f a w'
  | (Raise e, w') => (Raise e, w')
  end.

Definition raise {A} (e : exn) : M A := λ w, (Raise e, w).

Definition lift {A} (o : outcome A) : M A := λ w, (o, w).

(** [try: body  except Exception as e: handler(e)] *)
Definition try_except {A} (body : M A) (handler : exn → M A) : M A := λ w,
  match body w with
  | (Ok a, w') => (Ok a, w')
  | (Raise e, w') => handler e w'
  end.

Definition send (a : Action) : M unit := λ w, (Ok tt, add_event (Sent a) w).

(** A send that the environment may refuse, with the error it raises then. *)
Definition send_if (ok : bool) (error : string) (a : Action) : M unit := λ w,
  if ok then (Ok tt, add_event (Sent a) w)
  else (Raise (TelegramError error), add_event (SendFailed a) w).

Definition logger_exception (text : string) : M unit := λ w,
  (Ok tt, add_event (Logged text) w).

(** [datetime.utcnow()] *)
Definition utcnow (env : Env) : M datetime := λ w,
  (Ok (clock env (clock_reads w)), tick w).

(** [context.user_data.get(key)] and [context.user_data[key] = value] for
    the user of the update. *)
Definition user_data_get (user_id : Z) (key : string) : M (option string) := λ w,
  (Ok (user_data w !! user_id ≫= λ d, d !! key), w).

Definition user_data_set (user_id : Z) (key value : string) : M unit := λ w,
  (Ok tt,
   set_user_data
     (<[user_id := <[key := value]> (default ∅ (user_data w !! user_id))]> (user_data w)) w).

(** [d + timedelta(days=n)]: [OverflowError] outside 0001-01-01 .. 9999-12-31. *)
Definition date_add (d : date) (n : Z) : outcome date :=
  if in_range (d + n) then Ok (d + n) else Raise OverflowError.

(** SQLite's INTEGER is a signed 64-bit number. *)
Definition INT64_MIN : Z := - 2 ^ 63.
Definition INT64_MAX : Z := 2 ^ 63 - 1.

Definition fits_int64 (n : Z) : bool := (INT64_MIN <=? n) && (n <=? INT64_MAX).

(** Binding a Python [int] to a [?] of a statement: [OverflowError] when it
    does not fit. *)
Definition bind_integer (n : Z) : M unit := λ w,
  if fits_int64 n then (Ok tt, w) else (Raise OverflowError, w).

(** [cur.execute('INSERT ...')], [cur.lastrowid], [conn.commit()], the
    parameters bound.  Once the table has held the largest id there is,
    [AUTOINCREMENT] refuses every insert ("database or disk is full"). *)
Definition execute_insert (mk : Z → Booking) : M Z := λ w,
  if next_rowid (db w) <=? INT64_MAX then
    let '(rowid, d) := sql_insert mk (db w) in (Ok rowid, set_db d w)
  else (Raise OperationalError, w).

(** ** [main.py]: conversation states *)

Definition ASK_FILE_COUNT : Z := 0.
Definition ASK_DATE : Z := 1.
Definition ASK_DOC : Z := 2.
Definition END : Z := -1.          (* [ConversationHandler.END] *)

(** ** [main.py]: DB helpers *)

Definition add_booking (env : Env) (user_id : Z) (username : string) (date_str : string)
    (doc_file_id : string) (doc_file_name : option string) : M Z :=
  now ← utcnow env;
  bind_integer user_id;;
  execute_insert (λ rowid,
    {| b_id := rowid; b_user_id := user_id; b_username := username;
       b_date := date_str; b_status := "PENDING";
       b_doc_file_id := doc_file_id; b_doc_file_name := doc_file_name;
       b_created_at := dt_isoformat now |}).

Definition count_bookings_for_date (date_str : string) : M Z := λ w,
  (Ok (sql_count_approved date_str (db w)), w).

Definition user_has_booking_on_date (user_id : Z) (date_str : string) : M bool := λ w,
  (Ok (0 <? sql_count_user_date user_id date_str (db w)), w).

(** ** [main.py]: helpers *)

Definition is_allowed_weekday (dt : date) : bool :=
  bool_decide (weekday dt ∈ [6; 0; 1; 2; 3]).

Definition date_button (d : date) : list InlineKeyboardButton :=
  [ {| button_text := isoformat d; callback_data := "date:" +:+ isoformat d |} ].

(** The body of [for i in range(14)], over the values of [i] still to come. *)
Fixpoint buttons_loop (today min_allowed : date) (pending : list Z)
    (buttons : InlineKeyboardMarkup) : outcome InlineKeyboardMarkup :=
  match pending with
  | [] => Ok buttons
  | i :: pending' =>
      match date_add today i with
      | Raise e => Raise e
      | Ok d =>
          if (d <? min_allowed) || negb (is_allowed_weekday d)
          then buttons_loop today min_allowed pending' buttons
          else buttons_loop today min_allowed pending' (buttons ++ [date_button d])%list
      end
  end.

Definition generate_next_two_weeks_buttons (env : Env) : M InlineKeyboardMarkup :=
  now ← utcnow env;
  let today := dt_date now in
  min_allowed ← lift (date_add today 2);
  lift (buttons_loop today min_allowed (seqZ 0 14) []).

(** ** [main.py]: handlers

    A handler returns the next conversation state, or [None]. *)

Definition reply_text (m : Message) (text : string)
    (reply_markup : option InlineKeyboardMarkup) : M unit :=
  send (ReplyText (chat_id m) text reply_markup).

Definition start (env : Env) (m : Message) : M (option Z) :=
  reply_text m
    ("Welcome! Use /schedule to make a booking (Sun" +:+ en_dash +:+ "Thu)." +:+ nl
     +:+ "Commands:" +:+ nl +:+ "/schedule - start booking" +:+ nl
     +:+ "/mybookings - view your bookings" +:+ nl
     +:+ "/status - view pending bookings (admin)") None;;
  mret None.

Definition schedule_prompt : string :=
  "Please select a booking date (only Sun" +:+ en_dash
  +:+ "Thu, at least 2 days in advance):".

Definition schedule_start (env : Env) (m : Message) : M (option Z) :=
  markup ← generate_next_two_weeks_buttons env;
  reply_text m schedule_prompt (Some markup);;
  mret (Some ASK_DATE).

Definition already_booked_text (date_str : string) : string :=
  "You already have a booking on " +:+ date_str +:+ ".".

Definition fully_booked_text (date_str : string) : string :=
  date_str +:+ " is fully booked. Choose another date.".

Definition selected_text (date_str : string) : string :=
  "Selected date: " +:+ date_str +:+ nl +:+ "Now, please upload your document(s).".

(** [query.data.split(':')[1]] *)
Definition token_date (data : string) : option string := split_colon data !! 1%nat.

Definition receive_date_button (env : Env) (query : CallbackQuery) : M (option Z) :=
  let chat := cq_chat_id query in
  send (AnswerCallbackQuery chat);;
  data ← match cq_data query with Some s => mret s | None => raise AttributeError end;
  date_str ← match token_date data with Some s => mret s | None => raise IndexError end;
  let user_id := id (cq_from_user query) in
  booked ← user_has_booking_on_date user_id date_str;
  if booked : bool then
    send (EditMessageText chat (already_booked_text date_str));;
    mret (Some ASK_DATE)
  else
    n ← count_bookings_for_date date_str;
    if 10 <=? n then
      send (EditMessageText chat (fully_booked_text date_str));;
      mret (Some ASK_DATE)
    else
      user_data_set user_id "chosen_date" date_str;;
      send (EditMessageText chat (selected_text date_str));;
      mret (Some ASK_DOC).

Definition approve_reject_keyboard (booking_id : Z) : InlineKeyboardMarkup :=
  [ [ {| button_text := "Approve"; callback_data := "approve:" +:+ pretty booking_id |};
      {| button_text := "Reject"; callback_data := "reject:" +:+ pretty booking_id |} ] ].

Definition booking_caption (booking_id : Z) (user : User) (date_str : string) : string :=
  "New booking #" +:+ pretty booking_id +:+ nl
  +:+ "User: " +:+ full_name user +:+ " (@" +:+ default "None" (username user) +:+ ")" +:+ nl
  +:+ "Date: " +:+ date_str.

Definition dispatch_failed_text : string :=
  "Failed to send booking to admin. Please contact support.".

Definition reprompt_text : string := "Please send a file or photo as the document.".

(** Everything of [receive_document] from [add_booking] on. *)
Definition submit_booking (env : Env) (m : Message) (date_str : string)
    (file_id : string) (file_name : option string) : M (option Z) :=
  let user := from_user m in
  booking_id ← add_booking env (id user) (default EmptyString (username user))
                 date_str file_id file_name;
  let keyboard := approve_reject_keyboard booking_id in
  let caption := booking_caption booking_id user date_str in
  returned ← try_except
    (send_if (send_message_ok env) (transport_error env)
       (SendMessage (ADMIN_ID env) caption);;
     send_if (send_document_ok env) (transport_error env)
       (SendDocument (ADMIN_ID env) file_id file_name keyboard);;
     mret None)
    (λ e,
       logger_exception ("Failed to send to admin: " +:+ exn_text e);;
       send_if (failure_reply_ok env) (transport_error env)
         (ReplyText (chat_id m) dispatch_failed_text None);;
       mret (Some (Some END)));
  match returned with
  | Some r => mret r
  | None =>
      reply_text m "Booking submitted. You will be notified after admin approval." None;;
      mret (Some END)
  end.

Definition receive_document (env : Env) (m : Message) : M (option Z) :=
  let user := from_user m in
  chosen ← user_data_get (id user) "chosen_date";
  match chosen with
  | Some date_str =>
      if truthy date_str then
        match document m with
        | Some d => submit_booking env m date_str (file_id d) (file_name d)
        | None =>
            match last (photo m) with
            | Some file =>
                now ← utcnow env;
                let name :=
                  "photo_" +:+ pretty (id user) +:+ "_"
                  +:+ pretty (int_timestamp env now) +:+ ".jpg" in
                submit_booking env m date_str (photo_file_id file) (Some name)
            | None =>
                reply_text m reprompt_text None;;
                mret (Some ASK_DOC)
            end
        end
      else
        reply_text m "Date missing. Please start with /schedule." None;;
        mret (Some END)
  | None =>
      reply_text m "Date missing. Please start with /schedule." None;;
      mret (Some END)
  end.

Definition cancel (env : Env) (m : Message) : M (option Z) :=
  reply_text m "Booking canceled." None;;
  mret (Some END).

Definition unknown (env : Env) (m : Message) : M (option Z) :=
  reply_text m "Sorry, I did not understand that command." None;;
  mret None.

(** ** python-telegram-bot: handlers and filters *)

Definition Callback (U : Type) : Type := Env → U → M (option Z).

Inductive Handler :=
  | CommandHandler (cmd : string) (callback : Callback Message)
  | MessageHandler (filter : Message → bool) (callback : Callback Message)
  | CallbackQueryHandler (pattern : string → bool) (callback : Callback CallbackQuery).

Module filters.
Definition COMMAND (m : Message) : bool := bool_decide (is_Some (message_command m)).
Definition Document_ALL (m : Message) : bool := bool_decide (is_Some (document m)).
Definition PHOTO (m : Message) : bool :=
  match photo m with [] => false | _ => true end.
End filters.

(** [handler.check_update(update)], paired with the call it leads to. *)
Definition check_update (env : Env) (h : Handler) (u : Update) : option (M (option Z)) :=
  match h, u with
  | CommandHandler cmd callback, MessageUpdate m =>
      if bool_decide (message_command m = Some cmd) then Some (callback env m) else None
  | MessageHandler filter callback, MessageUpdate m =>
      if filter m then Some (callback env m) else None
  | CallbackQueryHandler pattern callback, CallbackQueryUpdate q =>
      match cq_data q with
      | Some data => if pattern data then Some (callback env q) else None
      | None => None
      end
  | _, _ => None
  end.

Fixpoint first_match (env : Env) (hs : list Handler) (u : Update) : option (M (option Z)) :=
  match hs with
  | [] => None
  | h :: hs' =>
      match check_update env h u with
      | Some run => Some run
      | None => first_match env hs' u
      end
  end.

(** ** python-telegram-bot: [ConversationHandler]

    Conversations are keyed by (chat id, user id); a key without an entry
    is a user with no conversation under way. *)

Record ConversationHandler := {
  entry_points : list Handler;
  states : gmap Z (list Handler);
  fallbacks : list Handler
}.

Definition conversation_key (u : Update) : Z * Z :=
  match u with
  | MessageUpdate m => (chat_id m, id (from_user m))
  | CallbackQueryUpdate q => (cq_chat_id q, id (cq_from_user q))
  end.

Definition conversation_check (env : Env) (ch : ConversationHandler) (u : Update)
    (w : World) : option (M (option Z)) :=
  match conversations w !! conversation_key u with
  | None => first_match env (entry_points ch) u
  | Some state =>
      match first_match env (default [] (states ch !! state)) u with
      | Some run => Some run
      | None => first_match env (fallbacks ch) u
      end
  end.

(** The state update after the callback has returned; a callback that
    raises leaves the conversation where it was. *)
Definition update_state (key : Z * Z) (result : outcome (option Z)) (w : World) : World :=
  match result with
  | Ok (Some new_state) =>
      if bool_decide (new_state = END)
      then set_conversations (delete key (conversations w)) w
      else set_conversations (<[key := new_state]> (conversations w)) w
  | Ok None => w
  | Raise _ => w
  end.

(** ** [main.py]: [main] *)

Definition conv_handler : ConversationHandler := {|
  entry_points := [CommandHandler "schedule" schedule_start];
  states :=
    {[ ASK_DATE := [ CallbackQueryHandler matches_date_pattern receive_date_button;
                     CommandHandler "schedule" schedule_start ];
       ASK_DOC := [ MessageHandler
                      (λ m, (filters.Document_ALL m || filters.PHOTO m)
                            && negb (filters.COMMAND m))
                      receive_document;
                    CommandHandler "schedule" schedule_start ] ]};
  fallbacks := [CommandHandler "cancel" cancel]
|}.

(** The three handlers of [main], all in one group: the first whose check
    accepts the update handles it, the others do not see it. *)
Definition process_update (env : Env) (u : Update) (w : World) : World :=
  match check_update env (CommandHandler "start" start) u with
  | Some run => snd (run w)
  | None =>
      match conversation_check env conv_handler u w with
      | Some run =>
          let '(result, w') := run w in
          update_state (conversation_key u) result w'
      | None =>
          match check_update env (MessageHandler filters.COMMAND unknown) u with
          | Some run => snd (run w)
          | None => w
          end
      end
  end.

(** The conversation state of a user in a chat, and the date the session
    holds for a user. *)
Definition conversation_state (w : World) (chat user_id : Z) : option Z :=
  conversations w !! (chat, user_id).

Definition chosen_date (w : World) (user_id : Z) : option string :=
  user_data w !! user_id ≫= λ d, d !! "chosen_date".

(** ** Vocabulary of the properties *)

(** Weekdays as [date.weekday()] numbers them. *)
Definition FRIDAY : Z := 4.
Definition SATURDAY : Z := 5.

(** A date the keyboard offers when the clock reads [today]. *)
Definition offerable (today d : date) : Prop :=
  today + 2 ≤ d ∧ is_allowed_weekday d = true.

Global Instance offerable_dec today d : Decision (offerable today d).
Proof. unfold offerable. apply _. Defined.

(** [today] and the last day of the 14-day horizon are both dates. *)
Definition horizon_in_range (today : date) : Prop :=
  1 ≤ today ∧ today + 13 ≤ MAXORDINAL.

(** Some booking of [user_id] for [date_str] is in the table, whatever its status. *)
Definition has_booking (d : DB) (user_id : Z) (date_str : string) : Prop :=
  ∃ b, b ∈ rows d ∧ b_user_id b = user_id ∧ b_date b = date_str.

(** The handling of a date selection ended in a rejection with [text]:
    the query was answered, the message was edited to [text], the
    conversation still waits for a date, and neither the sessions nor the
    table changed. *)
Definition selection_rejected_with (text : string) (q : CallbackQuery) (w w' : World) : Prop :=
  trace w' = (trace w ++ [Sent (AnswerCallbackQuery (cq_chat_id q));
                          Sent (EditMessageText (cq_chat_id q) text)])%list
  ∧ conversation_state w' (cq_chat_id q) (id (cq_from_user q)) = Some ASK_DATE
  ∧ user_data w' = user_data w
  ∧ db w' = db w.

(** The handling of a date selection accepted [date_str]. *)
Definition selection_accepted (date_str : string) (q : CallbackQuery) (w w' : World) : Prop :=
  trace w' = (trace w ++ [Sent (AnswerCallbackQuery (cq_chat_id q));
                          Sent (EditMessageText (cq_chat_id q) (selected_text date_str))])%list
  ∧ conversation_state w' (cq_chat_id q) (id (cq_from_user q)) = Some ASK_DOC
  ∧ chosen_date w' (id (cq_from_user q)) = Some date_str
  ∧ db w' = db w.

(** What the administrator's chat sees of a dispatch that fails: the
    caption goes through and the document does not, or the caption already
    fails and the document is never tried. *)
Definition failed_dispatch (env : Env) (caption file_id : string)
    (file_name : option string) (keyboard : InlineKeyboardMarkup) : list Event :=
  if send_message_ok env
  then [Sent (SendMessage (ADMIN_ID env) caption);
        SendFailed (SendDocument (ADMIN_ID env) file_id file_name keyboard)]
  else [SendFailed (SendMessage (ADMIN_ID env) caption)].

(** The row [add_booking] writes for a submission started in world [w0]. *)
Definition submitted_row (env : Env) (m : Message) (date_str file_id : string)
    (file_name : option string) (w0 : World) : Booking :=
  {| b_id := next_rowid (db w0); b_user_id := id (from_user m);
     b_username := default EmptyString (username (from_user m));
     b_date := date_str; b_status := "PENDING";
     b_doc_file_id := file_id; b_doc_file_name := file_name;
     b_created_at := dt_isoformat (clock env (clock_reads w0)) |}.

(** ** Sample data *)

Module Sample.

Definition monday_2024_01_01 : datetime :=
  {| dt_date := ymd2ord 2024 1 1; dt_second := 36000; dt_microsecond := 0 |}.

(** A machine on UTC whose clock stands at 2024-01-01 10:00:00; the reply
    after a failed dispatch goes through. *)
Definition env (message_ok document_ok : bool) : Env :=
  {| ADMIN_ID := 1000; clock := λ _, monday_2024_01_01;
     int_timestamp := λ _, 1704103200;
     send_message_ok := message_ok; send_document_ok := document_ok;
     transport_error := "Timed out"; failure_reply_ok := true |}.

(** The same machine with the transport down for every send. *)
Definition env_transport_down : Env :=
  {| ADMIN_ID := 1000; clock := λ _, monday_2024_01_01;
     int_timestamp := λ _, 1704103200;
     send_message_ok := false; send_document_ok := false;
     transport_error := "Timed out"; failure_reply_ok := false |}.

(** The last days of the calendar. *)
Definition env_end_of_calendar : Env :=
  {| ADMIN_ID := 1000;
     clock := λ _, {| dt_date := ymd2ord 9999 12 25; dt_second := 0; dt_microsecond := 0 |};
     int_timestamp := λ _, 253401696000;
     send_message_ok := true; send_document_ok := true;
     transport_error := "Timed out"; failure_reply_ok := true |}.

Definition user (n : Z) : User :=
  {| id := n; username := Some "user"; full_name := "A User" |}.

Definition select (n : Z) (data : string) : CallbackQuery :=
  {| cq_from_user := user n; cq_chat_id := n; cq_data := Some data |}.

Definition command (n : Z) (name : string) : Message :=
  {| from_user := user n; chat_id := n;
     content := TextContent ("/" +:+ name) (Some name) |}.

Definition text_message (n : Z) (text : string) : Message :=
  {| from_user := user n; chat_id := n; content := TextContent text None |}.

Definition document_message (n : Z) : Message :=
  {| from_user := user n; chat_id := n;
     content := DocumentContent {| file_id := "FILE-1"; file_name := Some "form.pdf" |} |}.

Definition booking (rowid user_id : Z) (date_str status : string) : Booking :=
  {| b_id := rowid; b_user_id := user_id; b_username := "user";
     b_date := date_str; b_status := status;
     b_doc_file_id := "FILE-0"; b_doc_file_name := None;
     b_created_at := "2023-12-01T09:00:00" |}.

(** A world in which user [n], in the private chat [n], is in [state]
    and holds [chosen] in the session. *)
Definition world (n : Z) (d : DB) (state : option Z) (chosen : option string) : World :=
  {| db := d;
     user_data := match chosen with
                  | Some s => {[ n := {[ "chosen_date" := s ]} ]}
                  | None => ∅
                  end;
     conversations := match state with
                      | Some s => {[ (n, n) := s ]}
                      | None => ∅
                      end;
     trace := [];
     clock_reads := 0 |}.

(** Ten approved bookings for 2024-01-10, by users 1 to 10. *)
Definition full_day : DB :=
  {| rows := (λ n, booking n n "2024-01-10" "APPROVED") <$> seqZ 1 10;
     sqlite_sequence := 10 |}.

(** One rejected booking of user 7 for 2024-01-10. *)
Definition one_rejected : DB :=
  {| rows := [booking 1 7 "2024-01-10" "REJECTED"]; sqlite_sequence := 1 |}.

End Sample.

(** ** [main.py]: [set_commands], [init_db] and the polling loop *)

(** The command menu [set_commands] registers with [set_my_commands], once
    at start-up; the call itself is not part of the trace. *)
Definition set_commands : list (string * string) :=
  [ ("start", "Start the bot");
    ("schedule", "Make a booking");
    ("mybookings", "View your bookings");
    ("pending", "View pending bookings (admin only)");
    ("cancel", "Cancel current action") ].

(** The commands some handler of [main] is registered for. *)
Definition handled_commands : list string := ["start"; "schedule"; "cancel"].

Definition unknown_text : string := "Sorry, I did not understand that command.".

Definition welcome_text : string :=
  "Welcome! Use /schedule to make a booking (Sun" +:+ en_dash +:+ "Thu)." +:+ nl
  +:+ "Commands:" +:+ nl +:+ "/schedule - start booking" +:+ nl
  +:+ "/mybookings - view your bookings" +:+ nl
  +:+ "/status - view pending bookings (admin)".

Definition canceled_text : string := "Booking canceled.".

(** [CREATE TABLE IF NOT EXISTS bookings]: a file that holds the table
    keeps it, a missing one gets the empty table. *)
Definition init_db (file : option DB) : DB := default empty_db file.

(** [app.run_polling()]: the updates are processed one after the other,
    each in the environment it arrives in. *)
Definition run_polling (events : list (Env * Update)) (w : World) : World :=
  foldl (λ w e, process_update e.1 e.2 w) w events.

(** [main()] on the database file [file]. *)
Definition main (file : option DB) (events : list (Env * Update)) : World :=
  run_polling events
    {| db := init_db file; user_data := ∅; conversations := ∅;
       trace := [Logged "Bot starting..."]; clock_reads := 0 |}.

(** ** Vocabulary of the properties, continued *)

(** The user whose session an update belongs to. *)
Definition update_user_id (u : Update) : Z := (conversation_key u).2.

(** One [INSERT] of a PENDING row. *)
Definition db_insert_pending (d d' : DB) : Prop :=
  ∃ bk, b_status bk = "PENDING" ∧ b_id bk = next_rowid d
        ∧ d' = {| rows := rows d ++ [bk]; sqlite_sequence := next_rowid d |}.

(** The callbacks an update can be handed to. *)
Inductive handled_by (env : Env) : Update → M (option Z) → Prop :=
  | by_start m : handled_by env (MessageUpdate m) (start env m)
  | by_schedule_start m : handled_by env (MessageUpdate m) (schedule_start env m)
  | by_receive_date_button q :
      handled_by env (CallbackQueryUpdate q) (receive_date_button env q)
  | by_receive_document m : handled_by env (MessageUpdate m) (receive_document env m)
  | by_cancel m : handled_by env (MessageUpdate m) (cancel env m)
  | by_unknown m : handled_by env (MessageUpdate m) (unknown env m).

(** The callbacks of [main.py], and the handlers built on them. *)
Definition is_message_callback (cb : Callback Message) : Prop :=
  cb = start ∨ cb = schedule_start ∨ cb = receive_document ∨ cb = cancel ∨ cb = unknown.

Definition registered (h : Handler) : Prop :=
  match h with
  | CommandHandler _ cb => is_message_callback cb
  | MessageHandler _ cb => is_message_callback cb
  | CallbackQueryHandler _ cb => cb = receive_date_button
  end.

(** What a callback may return. *)
Definition callback_result_ok (r : outcome (option Z)) : Prop :=
  match r with
  | Ok (Some state) => state = ASK_DATE ∨ state = ASK_DOC ∨ state = END
  | Ok None => True
  | Raise _ => True
  end.

(** The states the conversation handler has handlers for. *)
Definition known_state (state : option Z) : Prop :=
  state = None ∨ state = Some ASK_DATE ∨ state = Some ASK_DOC.

(** Several events, in order. *)
Definition add_events (evs : list Event) (w : World) : World :=
  foldl (λ w e, add_event e w) w evs.

(** The table after [add_booking] has inserted [bk]. *)
Definition db_with (bk : Booking) (d : DB) : DB :=
  {| rows := rows d ++ [bk]; sqlite_sequence := next_rowid d |}.

(** What the administrator's chat sees of a dispatch that goes through. *)
Definition dispatched (env : Env) (booking_id : Z) (user : User) (date_str file_id : string)
    (file_name : option string) : list Event :=
  [Sent (SendMessage (ADMIN_ID env) (booking_caption booking_id user date_str));
   Sent (SendDocument (ADMIN_ID env) file_id file_name (approve_reject_keyboard booking_id))].

Definition submitted_text : string :=
  "Booking submitted. You will be notified after admin approval.".

Definition date_missing_text : string := "Date missing. Please start with /schedule.".

(** The file reference and the file name [receive_document] takes from a
    message when its clock reading is [now]. *)
Definition attachment (env : Env) (m : Message) (now : datetime) : option (string * option string) :=
  match document m with
  | Some d => Some (file_id d, file_name d)
  | None =>
      match last (photo m) with
      | Some file =>
          Some (photo_file_id file,
                Some ("photo_" +:+ pretty (id (from_user m)) +:+ "_"
                      +:+ pretty (int_timestamp env now) +:+ ".jpg"))
      | None => None
      end
  end.

(** * Properties *)

(** Refutes a membership [x ∈ [y1; ...; yn]] between distinct constants. *)
Ltac not_in_list H :=
  repeat (apply elem_of_cons in H as [H|H]; [discriminate H|]);
  by apply elem_of_nil in H.

(** ** Callback tokens *)

Lemma split_colon_head (s : string) :
  ∃ pieces, split_colon s = before_colon s :: pieces.
Proof.
  induction s as [|a s [pieces IH]]; simpl.
  - by exists [].
  - destruct (is_colon a); [by eexists|].
    rewrite IH. by eexists.
Qed.

Lemma before_colon_id (s : string) : colon_free s = true → before_colon s = s.
Proof.
  induction s as [|a s IH]; simpl; [done|].
  intros [Ha Hs]%andb_true_iff. apply negb_true_iff in Ha.
  rewrite Ha. by rewrite IH.
Qed.

(** The date read from the token ["date:" ++ s] is [s] up to its first colon. *)
Lemma token_date_prefixed (s : string) :
  token_date ("date:" +:+ s) = Some (before_colon s).
Proof.
  unfold token_date, String.app. simpl.
  destruct (split_colon_head s) as [pieces ->]. done.
Qed.

Lemma matches_date_pattern_prefixed (s : string) :
  matches_date_pattern ("date:" +:+ s) = true.
Proof. unfold matches_date_pattern, String.app. by destruct s. Qed.

(** ** The table *)

Lemma user_has_booking_iff (d : DB) (user_id : Z) (date_str : string) :
  (0 <? sql_count_user_date user_id date_str d) = true ↔ has_booking d user_id date_str.
Proof.
  unfold sql_count_user_date, has_booking.
  rewrite Z.ltb_lt. split.
  - intros Hpos.
    destruct (filter _ (rows d)) as [|b bs] eqn:Hf; [simpl in Hpos; lia|].
    assert (Hin : b ∈ filter (λ b, b_user_id b = user_id ∧ b_date b = date_str) (rows d))
      by (rewrite Hf; left).
    apply list_elem_of_filter in Hin as [[? ?] ?]. eauto.
  - intros (b & Hin & Hu & Hd).
    assert (Hf : b ∈ filter (λ b, b_user_id b = user_id ∧ b_date b = date_str) (rows d))
      by (apply list_elem_of_filter; auto).
    destruct (filter _ (rows d)); [by apply elem_of_nil in Hf|simpl; lia].
Qed.

Lemma user_has_no_booking_iff (d : DB) (user_id : Z) (date_str : string) :
  (0 <? sql_count_user_date user_id date_str d) = false ↔ ¬ has_booking d user_id date_str.
Proof.
  rewrite <- user_has_booking_iff. destruct (0 <? _); split; congruence.
Qed.

Lemma max_rowid_bound (bs : list Booking) (b : Booking) :
  b ∈ bs → b_id b ≤ max_rowid bs.
Proof.
  unfold max_rowid. induction 1 as [b bs|b b' bs _ IH]; rewrite fmap_cons; simpl; lia.
Qed.

Lemma next_rowid_fresh (d : DB) (b : Booking) : b ∈ rows d → b_id b < next_rowid d.
Proof. intros Hin%max_rowid_bound. unfold next_rowid. lia. Qed.

Lemma next_rowid_above_sequence (d : DB) : sqlite_sequence d < next_rowid d.
Proof. unfold next_rowid. lia. Qed.

(** ** The offered dates *)

Lemma date_add_in_range (today i : Z) :
  horizon_in_range today → 0 ≤ i < 14 → date_add today i = Ok (today + i).
Proof.
  intros [Hlo Hhi] Hi. unfold date_add, in_range, MAXORDINAL in *.
  replace (1 <=? today + i) with true by (symmetry; apply Z.leb_le; lia).
  replace (today + i <=? 3652059) with true by (symmetry; apply Z.leb_le; lia).
  done.
Qed.

Lemma loop_test_offerable (today d : date) :
  (d <? today + 2) || negb (is_allowed_weekday d) = false ↔ offerable today d.
Proof.
  unfold offerable. rewrite orb_false_iff, Z.ltb_ge, negb_false_iff. tauto.
Qed.

(** The loop appends one button row per offerable date, in the order of
    the indices it runs over. *)
Lemma buttons_loop_spec (today : date) (pending : list Z) (buttons : InlineKeyboardMarkup) :
  horizon_in_range today →
  Forall (λ i, 0 ≤ i < 14) pending →
  buttons_loop today (today + 2) pending buttons
  = Ok (buttons ++ (date_button <$> filter (offerable today) (Z.add today <$> pending)))%list.
Proof.
  intros Hr Hall. revert buttons.
  induction Hall as [|i pending Hi _ IH]; intros buttons; simpl.
  - by rewrite app_nil_r.
  - rewrite (date_add_in_range today i Hr Hi).
    rewrite filter_cons.
    destruct (decide (offerable today (today + i))) as [Hoff|Hoff].
    + apply loop_test_offerable in Hoff as ->.
      rewrite IH. simpl. by rewrite <- app_assoc.
    + destruct ((today + i <? today + 2) || negb (is_allowed_weekday (today + i))) eqn:Ht.
      * apply IH.
      * by apply loop_test_offerable in Ht.
Qed.

Lemma generate_spec (env : Env) (w : World) :
  let today := dt_date (clock env (clock_reads w)) in
  horizon_in_range today →
  generate_next_two_weeks_buttons env w
  = (Ok (date_button <$> filter (offerable today) (seqZ today 14)), tick w).
Proof.
  intros today Hr.
  unfold generate_next_two_weeks_buttons, mbind, M_bind, utcnow, lift.
  cbv beta iota zeta. fold today.
  rewrite (date_add_in_range today 2 Hr) by lia.
  rewrite buttons_loop_spec; [|done|by apply Forall_seqZ; lia].
  rewrite fmap_add_seqZ, Z.add_0_r. done.
Qed.

Lemma StronglySorted_seqZ (m n : Z) : StronglySorted Z.lt (seqZ m n).
Proof.
  destruct (decide (0 ≤ n)) as [Hn|Hn]; [|rewrite seqZ_nil by lia; constructor].
  revert m. pattern n. apply natlike_ind; [| |done].
  - intros m. rewrite seqZ_nil by lia. constructor.
  - intros k Hk IH m. rewrite seqZ_cons by lia.
    replace (Z.pred (Z.succ k)) with k by lia.
    constructor; [apply IH|].
    apply Forall_seqZ. lia.
Qed.

Lemma StronglySorted_filter {A} (R : relation A) (P : A → Prop)
    `{∀ x, Decision (P x)} (l : list A) :
  StronglySorted R l → StronglySorted R (filter P l).
Proof.
  induction 1 as [|x l _ IH Hx]; [constructor|].
  rewrite filter_cons. destruct (decide (P x)); [|done].
  constructor; [done|].
  apply Forall_forall. intros y [_ Hy]%list_elem_of_filter.
  by eapply Forall_forall in Hx.
Qed.

Lemma allowed_weekday_iff (d : date) :
  is_allowed_weekday d = true ↔ weekday d ∈ [6; 0; 1; 2; 3].
Proof. unfold is_allowed_weekday. apply bool_decide_eq_true. Qed.

(** C5.  Whenever the clock's date [today] and the days up to [today + 13]
    are dates of the calendar, [generate_next_two_weeks_buttons] returns one
    button row per date of a list [dates] that holds exactly the dates [d]
    with [today <= d < today + 14], [d >= today + 2] and a weekday among
    Sunday (6), Monday (0), Tuesday (1), Wednesday (2), Thursday (3); no
    date before [today + 2], no Friday or Saturday, no date twice, and the
    dates strictly ascending. *)
Theorem offered_dates_exact (env : Env) (w : World) :
  let today := dt_date (clock env (clock_reads w)) in
  horizon_in_range today →
  ∃ dates : list date,
    generate_next_two_weeks_buttons env w = (Ok (date_button <$> dates), tick w)
    ∧ (∀ d, d ∈ dates ↔
            today ≤ d < today + 14 ∧ today + 2 ≤ d ∧ weekday d ∈ [6; 0; 1; 2; 3])
    ∧ (∀ d, d ∈ dates → ¬ d < today + 2)
    ∧ (∀ d, d ∈ dates → weekday d ≠ FRIDAY ∧ weekday d ≠ SATURDAY)
    ∧ NoDup dates
    ∧ StronglySorted Z.lt dates.
Proof.
  intros today Hr.
  exists (filter (offerable today) (seqZ today 14)).
  assert (Hmem : ∀ d, d ∈ filter (offerable today) (seqZ today 14) ↔
            today ≤ d < today + 14 ∧ today + 2 ≤ d ∧ weekday d ∈ [6; 0; 1; 2; 3]).
  { intros d. rewrite list_elem_of_filter, elem_of_seqZ. unfold offerable.
    rewrite allowed_weekday_iff. tauto. }
  split; [by apply generate_spec|].
  split; [exact Hmem|].
  split; [intros d Hd%Hmem; lia|].
  split.
  - intros d (_ & _ & Hwd)%Hmem. unfold FRIDAY, SATURDAY.
    split; intros Heq; rewrite Heq in Hwd; not_in_list Hwd.
  - split.
    + apply NoDup_filter, NoDup_seqZ.
    + apply StronglySorted_filter, StronglySorted_seqZ.
Qed.

Lemma offered_dates_exact_witness :
  horizon_in_range (ymd2ord 2024 1 1)
  ∧ ∃ dates : list date,
      generate_next_two_weeks_buttons (Sample.env true true)
        (Sample.world 7 empty_db None None)
      = (Ok (date_button <$> dates), tick (Sample.world 7 empty_db None None))
      ∧ NoDup dates ∧ StronglySorted Z.lt dates.
Proof.
  assert (Hr : horizon_in_range (ymd2ord 2024 1 1)) by (vm_compute; split; discriminate).
  split; [exact Hr|].
  destruct (offered_dates_exact (Sample.env true true)
              (Sample.world 7 empty_db None None) Hr)
    as (dates & Hgen & _ & _ & _ & Hnd & Hsorted).
  exists dates. auto.
Defined.

(** C6.  When the clock reads 2024-01-01, a Monday, the keyboard holds the
    rows 2024-01-03 (a Wednesday), 01-04, 01-07, 01-08, 01-09, 01-10,
    01-11 and 01-14: neither 2024-01-01 nor 2024-01-02, and none of the
    Fridays (01-05, 01-12) and Saturdays (01-06, 01-13) of the horizon. *)
Theorem scenario_A_first_monday_of_2024 (env : Env) (w : World) :
  dt_date (clock env (clock_reads w)) = ymd2ord 2024 1 1 →
  weekday (ymd2ord 2024 1 1) = 0
  ∧ weekday (ymd2ord 2024 1 3) = 2
  ∧ ∃ markup,
      generate_next_two_weeks_buttons env w = (Ok markup, tick w)
      ∧ markup = date_button <$> (ymd2ord 2024 1 <$> [3; 4; 7; 8; 9; 10; 11; 14])
      ∧ button_text <$> concat markup
        = ["2024-01-03"; "2024-01-04"; "2024-01-07"; "2024-01-08";
           "2024-01-09"; "2024-01-10"; "2024-01-11"; "2024-01-14"]
      ∧ callback_data <$> concat markup
        = ["date:2024-01-03"; "date:2024-01-04"; "date:2024-01-07"; "date:2024-01-08";
           "date:2024-01-09"; "date:2024-01-10"; "date:2024-01-11"; "date:2024-01-14"]
      ∧ head (button_text <$> concat markup) = Some "2024-01-03"
      ∧ ("2024-01-01" ∉ button_text <$> concat markup)
      ∧ ("2024-01-02" ∉ button_text <$> concat markup)
      ∧ Forall (λ d, weekday d ≠ FRIDAY ∧ weekday d ≠ SATURDAY)
          (ymd2ord 2024 1 <$> [3; 4; 7; 8; 9; 10; 11; 14])
      ∧ weekday <$> (ymd2ord 2024 1 <$> [5; 6; 12; 13])
        = [FRIDAY; SATURDAY; FRIDAY; SATURDAY].
Proof.
  intros Htoday.
  split; [reflexivity|]. split; [reflexivity|].
  eexists. split.
  { rewrite generate_spec; rewrite Htoday; [reflexivity|].
    vm_compute. split; discriminate. }
  assert (Hdates : filter (offerable (ymd2ord 2024 1 1)) (seqZ (ymd2ord 2024 1 1) 14)
                   = ymd2ord 2024 1 <$> [3; 4; 7; 8; 9; 10; 11; 14]) by (by vm_compute).
  rewrite Hdates.
  split; [reflexivity|].
  split; [by vm_compute|]. split; [by vm_compute|]. split; [by vm_compute|].
  split; [intros Hin; vm_compute in Hin; not_in_list Hin|].
  split; [intros Hin; vm_compute in Hin; not_in_list Hin|].
  split; [|by vm_compute].
  repeat constructor; by vm_compute.
Qed.

Lemma scenario_A_first_monday_of_2024_witness :
  ∃ markup,
    generate_next_two_weeks_buttons (Sample.env true true)
      (Sample.world 7 empty_db None None)
    = (Ok markup, tick (Sample.world 7 empty_db None None))
    ∧ head (button_text <$> concat markup) = Some "2024-01-03".
Proof.
  destruct (scenario_A_first_monday_of_2024 (Sample.env true true)
              (Sample.world 7 empty_db None None) eq_refl)
    as (_ & _ & markup & Hgen & _ & _ & _ & Hhead & _).
  exists markup. auto.
Defined.

(** ** The booking store *)

(** [add_booking], run: the clock is read, the user id bound, the row
    inserted. *)
Lemma add_booking_run (env : Env) (w : World)
    (user_id : Z) (username date_str doc_file_id : string)
    (doc_file_name : option string) :
  add_booking env user_id username date_str doc_file_id doc_file_name w
  = if fits_int64 user_id then
      if next_rowid (db w) <=? INT64_MAX then
        (Ok (next_rowid (db w)),
         set_db {| rows := rows (db w)
                           ++ [ {| b_id := next_rowid (db w); b_user_id := user_id;
                                   b_username := username; b_date := date_str;
                                   b_status := "PENDING"; b_doc_file_id := doc_file_id;
                                   b_doc_file_name := doc_file_name;
                                   b_created_at :=
                                     dt_isoformat (clock env (clock_reads w)) |} ];
                   sqlite_sequence := next_rowid (db w) |} (tick w))
      else (Raise OperationalError, tick w)
    else (Raise OverflowError, tick w).
Proof.
  unfold add_booking, utcnow, bind_integer, execute_insert, sql_insert, mbind, M_bind.
  cbv beta iota zeta.
  destruct (fits_int64 user_id); [|done].
  cbn [db tick]. by destruct (next_rowid (db w) <=? INT64_MAX).
Qed.

(** C4, as the sentence has it, fails: a user id of 2^63 does not fit
    SQLite's INTEGER; the call raises [OverflowError], returns no id and
    creates no row. *)
Lemma add_booking_overflow_counterexample :
  add_booking (Sample.env true true) (2 ^ 63) "user" "2024-01-10" "FILE-1" None
    (Sample.world 7 empty_db None None)
  = (Raise OverflowError, tick (Sample.world 7 empty_db None None))
  ∧ rows (db (add_booking (Sample.env true true) (2 ^ 63) "user" "2024-01-10" "FILE-1" None
                (Sample.world 7 empty_db None None)).2)
    = []
  ∧ ¬ ∃ (booking_id : Z) (w' : World),
        add_booking (Sample.env true true) (2 ^ 63) "user" "2024-01-10" "FILE-1" None
          (Sample.world 7 empty_db None None)
        = (Ok booking_id, w').
Proof.
  assert (Hrun : add_booking (Sample.env true true) (2 ^ 63) "user" "2024-01-10" "FILE-1" None
                   (Sample.world 7 empty_db None None)
                 = (Raise OverflowError, tick (Sample.world 7 empty_db None None)))
    by (by rewrite add_booking_run).
  split; [exact Hrun|]. split; [by rewrite Hrun|].
  intros (booking_id & w' & Hok). rewrite Hrun in Hok. discriminate Hok.
Qed.

(** C4, amended.  Every call of [add_booking] with a user id that fits a
    signed 64-bit integer, on a table that has not yet issued the id
    2^63 - 1, returns normally, appends exactly one row and changes no
    other; the row has status PENDING (so neither APPROVED nor REJECTED),
    carries the ISO text of the UTC clock reading taken by the call and the
    five values passed in; the id returned is the row's id, is larger than
    every id in the table and than every id the table has handed out
    before, and a later call that returns, returns a larger one still. *)
Theorem add_booking_inserts_pending (env : Env) (w : World)
    (user_id : Z) (username date_str doc_file_id : string)
    (doc_file_name : option string) :
  fits_int64 user_id = true →
  next_rowid (db w) ≤ INT64_MAX →
  ∃ (bk : Booking) (w' : World),
    add_booking env user_id username date_str doc_file_id doc_file_name w
    = (Ok (b_id bk), w')
    ∧ rows (db w') = (rows (db w) ++ [bk])%list
    ∧ b_status bk = "PENDING"
    ∧ b_status bk ≠ "APPROVED" ∧ b_status bk ≠ "REJECTED"
    ∧ b_created_at bk = dt_isoformat (clock env (clock_reads w))
    ∧ b_user_id bk = user_id ∧ b_username bk = username ∧ b_date bk = date_str
    ∧ b_doc_file_id bk = doc_file_id ∧ b_doc_file_name bk = doc_file_name
    ∧ (∀ r, r ∈ rows (db w) → b_id r < b_id bk)
    ∧ sqlite_sequence (db w) < b_id bk
    ∧ (∀ env2 user_id2 username2 date_str2 doc_file_id2 doc_file_name2
         (booking_id2 : Z) (w2 : World),
         add_booking env2 user_id2 username2 date_str2 doc_file_id2 doc_file_name2 w'
         = (Ok booking_id2, w2) →
         b_id bk < booking_id2).
Proof.
  intros Hfits Hroom%Z.leb_le.
  exists {| b_id := next_rowid (db w); b_user_id := user_id; b_username := username;
            b_date := date_str; b_status := "PENDING"; b_doc_file_id := doc_file_id;
            b_doc_file_name := doc_file_name;
            b_created_at := dt_isoformat (clock env (clock_reads w)) |}.
  eexists. split; [by rewrite add_booking_run, Hfits, Hroom|].
  repeat (split; [done|]).
  split; [apply next_rowid_fresh|].
  split; [apply next_rowid_above_sequence|].
  intros env2 user_id2 username2 date_str2 doc_file_id2 doc_file_name2 booking_id2 w2.
  rewrite add_booking_run.
  destruct (fits_int64 user_id2); [|done].
  case_match; [|done].
  intros [= <- _]. cbn [b_id].
  exact (next_rowid_above_sequence
           {| rows := _; sqlite_sequence := next_rowid (db w) |}).
Qed.

Lemma add_booking_inserts_pending_witness :
  ∃ (bk : Booking) (w' : World),
    add_booking (Sample.env true true) 7 "user" "2024-01-10" "FILE-1" None
      (Sample.world 7 Sample.full_day None None)
    = (Ok (b_id bk), w')
    ∧ b_status bk = "PENDING"
    ∧ sqlite_sequence Sample.full_day < b_id bk.
Proof.
  destruct (add_booking_inserts_pending (Sample.env true true)
              (Sample.world 7 Sample.full_day None None)
              7 "user" "2024-01-10" "FILE-1" None)
    as (bk & w' & Hrun & _ & Hst & _ & _ & _ & _ & _ & _ & _ & _ & _ & Hseq & _).
  - reflexivity.
  - vm_compute. discriminate.
  - exists bk, w'. split; [exact Hrun|]. split; [exact Hst|exact Hseq].
Defined.

(** C7.  After [add_booking] has returned for a user and a date -- as it
    does whenever the user id fits a signed 64-bit integer and the table
    has not yet issued the id 2^63 - 1 -- [user_has_booking_on_date]
    answers [True] for them on the resulting table. *)
Theorem has_booking_after_add_booking (env : Env) (w : World)
    (user_id : Z) (username date_str doc_file_id : string)
    (doc_file_name : option string) :
  fits_int64 user_id = true →
  next_rowid (db w) ≤ INT64_MAX →
  (∃ (booking_id : Z) (w' : World),
     add_booking env user_id username date_str doc_file_id doc_file_name w
     = (Ok booking_id, w')
     ∧ user_has_booking_on_date user_id date_str w' = (Ok true, w'))
  ∧ ∀ (booking_id : Z) (w' : World),
      add_booking env user_id username date_str doc_file_id doc_file_name w
      = (Ok booking_id, w') →
      user_has_booking_on_date user_id date_str w' = (Ok true, w').
Proof.
  intros Hfits Hroom%Z.leb_le.
  rewrite add_booking_run, Hfits, Hroom.
  assert (Hhas : ∀ w', w' = set_db {| rows := rows (db w)
                           ++ [ {| b_id := next_rowid (db w); b_user_id := user_id;
                                   b_username := username; b_date := date_str;
                                   b_status := "PENDING"; b_doc_file_id := doc_file_id;
                                   b_doc_file_name := doc_file_name;
                                   b_created_at :=
                                     dt_isoformat (clock env (clock_reads w)) |} ];
                   sqlite_sequence := next_rowid (db w) |} (tick w) →
                 user_has_booking_on_date user_id date_str w' = (Ok true, w')).
  { intros w' ->. unfold user_has_booking_on_date. f_equal. f_equal.
    apply user_has_booking_iff.
    eexists {| b_id := next_rowid (db w) |}. cbn.
    split; [|done]. apply elem_of_app. right. left. }
  split.
  - eexists _, _. split; [reflexivity|]. by apply Hhas.
  - intros booking_id w' [= _ <-]. by apply Hhas.
Qed.

Lemma has_booking_after_add_booking_witness :
  ∃ (booking_id : Z) (w' : World),
    add_booking (Sample.env true true) 7 "user" "2024-01-10" "FILE-1" None
      (Sample.world 7 empty_db None None)
    = (Ok booking_id, w')
    ∧ user_has_booking_on_date 7 "2024-01-10" w' = (Ok true, w').
Proof.
  refine (proj1 (has_booking_after_add_booking (Sample.env true true)
                   (Sample.world 7 empty_db None None)
                   7 "user" "2024-01-10" "FILE-1" None _ _)).
  - reflexivity.
  - vm_compute. discriminate.
Defined.

(** ** The dispatcher *)

Lemma conv_states_ASK_DATE :
  states conv_handler !! ASK_DATE
  = Some [ CallbackQueryHandler matches_date_pattern receive_date_button;
           CommandHandler "schedule" schedule_start ].
Proof. unfold conv_handler, states. apply lookup_insert_eq. Qed.

Lemma conv_states_ASK_DOC :
  states conv_handler !! ASK_DOC
  = Some [ MessageHandler
             (λ m, (filters.Document_ALL m || filters.PHOTO m)
                   && negb (filters.COMMAND m))
             receive_document;
           CommandHandler "schedule" schedule_start ].
Proof.
  unfold conv_handler, states.
  rewrite lookup_insert_ne by done. apply lookup_singleton_eq.
Qed.

(** Unfolds the monad's plumbing. *)
Ltac run_monad :=
  unfold mbind, M_bind, mret, M_ret, raise, lift, send, send_if, try_except,
    logger_exception, reply_text, user_data_get, user_data_set,
    user_has_booking_on_date, count_bookings_for_date;
  cbv beta iota.

(** In [ASK_DATE], a callback query whose data starts with ["date:"] goes
    to [receive_date_button]. *)
Lemma process_date_selection (env : Env) (q : CallbackQuery) (w : World) (data : string) :
  conversations w !! (cq_chat_id q, id (cq_from_user q)) = Some ASK_DATE →
  cq_data q = Some data →
  matches_date_pattern data = true →
  process_update env (CallbackQueryUpdate q) w
  = update_state (cq_chat_id q, id (cq_from_user q))
      (receive_date_button env q w).1 (receive_date_button env q w).2.
Proof.
  intros Hstate Hdata Hpat.
  unfold process_update, conversation_check.
  cbn [check_update conversation_key]. rewrite Hstate, conv_states_ASK_DATE.
  cbn [from_option Datatypes.id first_match check_update]. rewrite Hdata, Hpat.
  by destruct (receive_date_button env q w).
Qed.

Lemma command_content (m : Message) (name : string) :
  message_command m = Some name →
  document m = None ∧ photo m = [].
Proof. unfold message_command, document, photo. by destruct (content m). Qed.

(** [/schedule] reaches [schedule_start] from both states of the conversation. *)
Lemma process_schedule (env : Env) (m : Message) (w : World) (state : Z) :
  conversations w !! (chat_id m, id (from_user m)) = Some state →
  state = ASK_DATE ∨ state = ASK_DOC →
  message_command m = Some "schedule" →
  process_update env (MessageUpdate m) w
  = update_state (chat_id m, id (from_user m))
      (schedule_start env m w).1 (schedule_start env m w).2.
Proof.
  intros Hstate Hcases Hcmd.
  destruct (command_content m _ Hcmd) as [Hdoc Hphoto].
  unfold process_update, conversation_check.
  cbn [check_update conversation_key]. rewrite Hcmd, Hstate.
  rewrite bool_decide_eq_false_2 by discriminate.
  destruct Hcases as [-> | ->].
  - rewrite conv_states_ASK_DATE. cbn [from_option Datatypes.id first_match check_update].
    rewrite Hcmd, bool_decide_eq_true_2 by done.
    by destruct (schedule_start env m w).
  - rewrite conv_states_ASK_DOC. cbn [from_option Datatypes.id first_match check_update].
    unfold filters.Document_ALL, filters.PHOTO, filters.COMMAND.
    rewrite Hdoc, Hphoto, Hcmd. cbn [orb andb].
    rewrite bool_decide_eq_false_2 by (intros []; discriminate).
    cbn [orb andb]. rewrite bool_decide_eq_true_2 by done.
    by destruct (schedule_start env m w).
Qed.

Lemma attachment_content (m : Message) :
  is_Some (document m) ∨ photo m ≠ [] →
  message_command m = None
  ∧ (filters.Document_ALL m || filters.PHOTO m) && negb (filters.COMMAND m) = true.
Proof.
  unfold filters.Document_ALL, filters.PHOTO, filters.COMMAND,
    message_command, document, photo.
  destruct (content m) as [t c|d|sizes|]; intros [[x Hx]|Hne]; try done.
  destruct sizes; [done|]. split; [done|].
  rewrite bool_decide_eq_false_2 by (intros []; discriminate).
  rewrite bool_decide_eq_false_2 by (intros []; discriminate). done.
Qed.

(** In [ASK_DOC], a document or a photo goes to [receive_document]. *)
Lemma process_attachment (env : Env) (m : Message) (w : World) :
  conversations w !! (chat_id m, id (from_user m)) = Some ASK_DOC →
  is_Some (document m) ∨ photo m ≠ [] →
  process_update env (MessageUpdate m) w
  = update_state (chat_id m, id (from_user m))
      (receive_document env m w).1 (receive_document env m w).2.
Proof.
  intros Hstate [Hcmd Hfilter]%attachment_content.
  unfold process_update, conversation_check.
  cbn [check_update conversation_key]. rewrite Hcmd, Hstate.
  rewrite bool_decide_eq_false_2 by discriminate.
  rewrite conv_states_ASK_DOC. cbn [from_option Datatypes.id first_match check_update].
  rewrite Hfilter.
  by destruct (receive_document env m w).
Qed.

(** In [ASK_DOC], a message that is no document, no photo and no command
    matches no handler at all: nothing is sent and nothing changes. *)
Lemma process_other_in_ASK_DOC (env : Env) (m : Message) (w : World) :
  conversations w !! (chat_id m, id (from_user m)) = Some ASK_DOC →
  document m = None → photo m = [] → message_command m = None →
  process_update env (MessageUpdate m) w = w.
Proof.
  intros Hstate Hdoc Hphoto Hcmd.
  unfold process_update, conversation_check.
  cbn [check_update conversation_key]. rewrite Hcmd, Hstate.
  rewrite bool_decide_eq_false_2 by discriminate.
  rewrite conv_states_ASK_DOC. cbn [from_option Datatypes.id first_match check_update].
  unfold filters.Document_ALL, filters.PHOTO, filters.COMMAND.
  rewrite Hdoc, Hphoto, Hcmd. cbn [orb andb].
  cbn [conv_handler fallbacks first_match check_update]. rewrite Hcmd.
  rewrite !(bool_decide_eq_false_2 (None = Some _)) by discriminate.
  by rewrite (bool_decide_eq_false_2 (is_Some None)) by (intros [? ?]; discriminate).
Qed.

(** In [ASK_DATE], a document or a photo matches no handler: a date left
    in the session by an earlier selection cannot be turned into a booking
    before a new selection has replaced it. *)
Lemma process_attachment_in_ASK_DATE (env : Env) (m : Message) (w : World) :
  conversations w !! (chat_id m, id (from_user m)) = Some ASK_DATE →
  is_Some (document m) ∨ photo m ≠ [] →
  process_update env (MessageUpdate m) w = w.
Proof.
  intros Hstate [Hcmd _]%attachment_content.
  unfold process_update, conversation_check.
  cbn [check_update conversation_key]. rewrite Hcmd, Hstate.
  rewrite conv_states_ASK_DATE.
  cbn [conv_handler fallbacks from_option Datatypes.id first_match check_update].
  rewrite Hcmd.
  unfold filters.COMMAND. rewrite Hcmd.
  rewrite !(bool_decide_eq_false_2 (None = Some _)) by discriminate.
  by rewrite (bool_decide_eq_false_2 (is_Some None)) by (intros [? ?]; discriminate).
Qed.

(** ** Date selection *)

(** What [receive_date_button] does once the token has been read. *)
Lemma receive_date_button_run (env : Env) (q : CallbackQuery) (w : World)
    (data d : string) :
  cq_data q = Some data →
  token_date data = Some d →
  receive_date_button env q w
  = let chat := cq_chat_id q in
    let user_id := id (cq_from_user q) in
    let w1 := add_event (Sent (AnswerCallbackQuery chat)) w in
    if 0 <? sql_count_user_date user_id d (db w) then
      (Ok (Some ASK_DATE), add_event (Sent (EditMessageText chat (already_booked_text d))) w1)
    else if 10 <=? sql_count_approved d (db w) then
      (Ok (Some ASK_DATE), add_event (Sent (EditMessageText chat (fully_booked_text d))) w1)
    else
      (Ok (Some ASK_DOC),
       add_event (Sent (EditMessageText chat (selected_text d)))
         (set_user_data
            (<[user_id := <["chosen_date" := d]> (default ∅ (user_data w !! user_id))]>
               (user_data w)) w1)).
Proof.
  intros Hdata Htoken.
  unfold receive_date_button. run_monad. rewrite Hdata. cbv beta iota.
  rewrite Htoken. cbv beta iota zeta. cbn [db add_event].
  destruct (0 <? _); [done|].
  by destruct (10 <=? _).
Qed.

Lemma selection_rejected_intro (env : Env) (q : CallbackQuery) (w : World)
    (data text : string) :
  conversation_state w (cq_chat_id q) (id (cq_from_user q)) = Some ASK_DATE →
  cq_data q = Some data →
  matches_date_pattern data = true →
  receive_date_button env q w
  = (Ok (Some ASK_DATE),
     add_event (Sent (EditMessageText (cq_chat_id q) text))
       (add_event (Sent (AnswerCallbackQuery (cq_chat_id q))) w)) →
  selection_rejected_with text q w (process_update env (CallbackQueryUpdate q) w).
Proof.
  intros Hstate Hdata Hpat Hrun.
  rewrite (process_date_selection env q w data Hstate Hdata Hpat), Hrun.
  cbn [fst snd update_state].
  rewrite bool_decide_eq_false_2 by done.
  unfold selection_rejected_with, conversation_state.
  cbn [trace db user_data conversations set_conversations add_event].
  rewrite lookup_insert_eq, <- app_assoc. done.
Qed.

(** C2.  In [ASK_DATE], when the table holds a booking [b] of the user for
    the date [d] read from the callback token -- nothing is asked of
    [b]'s status -- the selection is answered with the already-booked text
    and the conversation stays in [ASK_DATE]; session data and table are
    as before. *)
Theorem duplicate_selection_rejected (env : Env) (q : CallbackQuery) (w : World)
    (data d : string) (b : Booking) :
  conversation_state w (cq_chat_id q) (id (cq_from_user q)) = Some ASK_DATE →
  cq_data q = Some data →
  matches_date_pattern data = true →
  token_date data = Some d →
  b ∈ rows (db w) → b_user_id b = id (cq_from_user q) → b_date b = d →
  selection_rejected_with (already_booked_text d) q w
    (process_update env (CallbackQueryUpdate q) w).
Proof.
  intros Hstate Hdata Hpat Htoken Hin Huser Hdate.
  apply (selection_rejected_intro env q w data); try done.
  rewrite (receive_date_button_run env q w data d Hdata Htoken). cbv zeta.
  assert (Hbooked : has_booking (db w) (id (cq_from_user q)) d) by (by exists b).
  by apply user_has_booking_iff in Hbooked as ->.
Qed.

Lemma duplicate_selection_rejected_witness :
  selection_rejected_with (already_booked_text "2024-01-10")
    (Sample.select 7 "date:2024-01-10")
    (Sample.world 7 Sample.one_rejected (Some ASK_DATE) None)
    (process_update (Sample.env true true)
       (CallbackQueryUpdate (Sample.select 7 "date:2024-01-10"))
       (Sample.world 7 Sample.one_rejected (Some ASK_DATE) None)).
Proof.
  apply (duplicate_selection_rejected (Sample.env true true)
           (Sample.select 7 "date:2024-01-10")
           (Sample.world 7 Sample.one_rejected (Some ASK_DATE) None)
           "date:2024-01-10" "2024-01-10"
           (Sample.booking 1 7 "2024-01-10" "REJECTED")).
  - reflexivity.
  - reflexivity.
  - reflexivity.
  - reflexivity.
  - left.
  - reflexivity.
  - reflexivity.
Defined.

(** C1, as the sentence has it, fails: user 7 selects 2024-01-10, which
    holds ten approved bookings, one of them user 7's own; the check for
    the user's own booking comes first, so the text sent is the
    already-booked one and not the fully-booked one. *)
Lemma full_date_own_booking_counterexample :
  conversation_state (Sample.world 7 Sample.full_day (Some ASK_DATE) None) 7 7
  = Some ASK_DATE
  ∧ token_date "date:2024-01-10" = Some "2024-01-10"
  ∧ 10 ≤ sql_count_approved "2024-01-10" Sample.full_day
  ∧ ¬ selection_rejected_with (fully_booked_text "2024-01-10")
        (Sample.select 7 "date:2024-01-10")
        (Sample.world 7 Sample.full_day (Some ASK_DATE) None)
        (process_update (Sample.env true true)
           (CallbackQueryUpdate (Sample.select 7 "date:2024-01-10"))
           (Sample.world 7 Sample.full_day (Some ASK_DATE) None)).
Proof.
  split; [reflexivity|]. split; [reflexivity|].
  split; [by vm_compute|].
  intros [Htrace _]. vm_compute in Htrace. discriminate Htrace.
Qed.

(** C1, amended.  In [ASK_DATE], when the date [d] read from the callback
    token has ten or more approved bookings, the selection is rejected: the
    conversation stays in [ASK_DATE] and session data and table are as
    before.  The text sent is the fully-booked one when the user has no
    booking of their own for [d], and the already-booked one when they
    have. *)
Theorem full_date_selection_rejected (env : Env) (q : CallbackQuery) (w : World)
    (data d : string) :
  conversation_state w (cq_chat_id q) (id (cq_from_user q)) = Some ASK_DATE →
  cq_data q = Some data →
  matches_date_pattern data = true →
  token_date data = Some d →
  10 ≤ sql_count_approved d (db w) →
  let w' := process_update env (CallbackQueryUpdate q) w in
  (¬ has_booking (db w) (id (cq_from_user q)) d →
     selection_rejected_with (fully_booked_text d) q w w')
  ∧ (has_booking (db w) (id (cq_from_user q)) d →
     selection_rejected_with (already_booked_text d) q w w')
  ∧ conversation_state w' (cq_chat_id q) (id (cq_from_user q)) = Some ASK_DATE
  ∧ chosen_date w' (id (cq_from_user q)) = chosen_date w (id (cq_from_user q))
  ∧ user_data w' = user_data w
  ∧ db w' = db w.
Proof.
  intros Hstate Hdata Hpat Htoken Hfull w'.
  pose proof (receive_date_button_run env q w data d Hdata Htoken) as Hrun.
  cbv zeta in Hrun.
  assert (Hno : ¬ has_booking (db w) (id (cq_from_user q)) d →
                selection_rejected_with (fully_booked_text d) q w w').
  { intros Hnone%user_has_no_booking_iff.
    apply (selection_rejected_intro env q w data); try done.
    rewrite Hrun, Hnone. by apply Z.leb_le in Hfull as ->. }
  assert (Hyes : has_booking (db w) (id (cq_from_user q)) d →
                 selection_rejected_with (already_booked_text d) q w w').
  { intros Hsome%user_has_booking_iff.
    apply (selection_rejected_intro env q w data); try done.
    by rewrite Hrun, Hsome. }
  split; [done|]. split; [done|].
  assert (Hany : ∃ text, selection_rejected_with text q w w').
  { destruct (0 <? sql_count_user_date (id (cq_from_user q)) d (db w)) eqn:Hc.
    - apply user_has_booking_iff in Hc. eauto.
    - apply user_has_no_booking_iff in Hc. eauto. }
  destruct Hany as (text & _ & Hst & Hud & Hdb).
  unfold chosen_date. by rewrite Hud.
Qed.

Lemma full_date_selection_rejected_witness :
  selection_rejected_with (fully_booked_text "2024-01-10")
    (Sample.select 77 "date:2024-01-10")
    (Sample.world 77 Sample.full_day (Some ASK_DATE) None)
    (process_update (Sample.env true true)
       (CallbackQueryUpdate (Sample.select 77 "date:2024-01-10"))
       (Sample.world 77 Sample.full_day (Some ASK_DATE) None)).
Proof.
  refine (proj1 (full_date_selection_rejected (Sample.env true true)
                   (Sample.select 77 "date:2024-01-10")
                   (Sample.world 77 Sample.full_day (Some ASK_DATE) None)
                   "date:2024-01-10" "2024-01-10" _ _ _ _ _) _).
  - reflexivity.
  - reflexivity.
  - reflexivity.
  - reflexivity.
  - vm_compute. discriminate.
  - intros Hb%user_has_booking_iff. vm_compute in Hb. discriminate Hb.
Defined.

(** ** Acceptance without validation *)

Lemma selection_accepted_intro (env : Env) (q : CallbackQuery) (w : World)
    (data d : string) :
  conversation_state w (cq_chat_id q) (id (cq_from_user q)) = Some ASK_DATE →
  cq_data q = Some data →
  matches_date_pattern data = true →
  token_date data = Some d →
  ¬ has_booking (db w) (id (cq_from_user q)) d →
  sql_count_approved d (db w) < 10 →
  selection_accepted d q w (process_update env (CallbackQueryUpdate q) w).
Proof.
  intros Hstate Hdata Hpat Htoken Hnone%user_has_no_booking_iff Hroom%Z.leb_gt.
  rewrite (process_date_selection env q w data Hstate Hdata Hpat).
  rewrite (receive_date_button_run env q w data d Hdata Htoken). cbv zeta.
  rewrite Hnone, Hroom. cbn [fst snd update_state].
  rewrite bool_decide_eq_false_2 by done.
  unfold selection_accepted, conversation_state, chosen_date.
  cbn [trace db user_data conversations set_conversations set_user_data add_event].
  rewrite !lookup_insert_eq, <- app_assoc. cbn. by rewrite lookup_insert_eq.
Qed.

(** C10, as the sentence has it, fails: for the token ["date:10:30"] on an
    empty table both checks pass, the conversation advances, and the
    session holds ["10"], not ["10:30"]. *)
Lemma colon_token_counterexample :
  ¬ has_booking empty_db 7 "10:30"
  ∧ sql_count_approved "10:30" empty_db < 10
  ∧ chosen_date
      (process_update (Sample.env true true)
         (CallbackQueryUpdate (Sample.select 7 "date:10:30"))
         (Sample.world 7 empty_db (Some ASK_DATE) None)) 7
    = Some "10"
  ∧ ¬ selection_accepted "10:30" (Sample.select 7 "date:10:30")
        (Sample.world 7 empty_db (Some ASK_DATE) None)
        (process_update (Sample.env true true)
           (CallbackQueryUpdate (Sample.select 7 "date:10:30"))
           (Sample.world 7 empty_db (Some ASK_DATE) None)).
Proof.
  split; [intros (b & Hin & _); by apply elem_of_nil in Hin|].
  split; [by vm_compute|].
  split; [by vm_compute|].
  intros (_ & _ & Hchosen & _). vm_compute in Hchosen. discriminate Hchosen.
Qed.

(** C10, amended.  In [ASK_DATE], for every string [s], the token
    ["date:" ++ s] is handled with the part of [s] before its first colon
    as the date ([s] itself when it has no colon): when the user has no
    booking for it and it has fewer than ten approved bookings, that date
    is stored as the session's [chosen_date] and the conversation advances
    to [ASK_DOC].  Nothing else about the string is looked at. *)
Theorem date_token_accepted_unvalidated (env : Env) (q : CallbackQuery) (w : World)
    (s : string) :
  conversation_state w (cq_chat_id q) (id (cq_from_user q)) = Some ASK_DATE →
  cq_data q = Some ("date:" +:+ s) →
  ¬ has_booking (db w) (id (cq_from_user q)) (before_colon s) →
  sql_count_approved (before_colon s) (db w) < 10 →
  let w' := process_update env (CallbackQueryUpdate q) w in
  selection_accepted (before_colon s) q w w'
  ∧ (colon_free s = true → selection_accepted s q w w').
Proof.
  intros Hstate Hdata Hnone Hroom w'.
  assert (Hacc : selection_accepted (before_colon s) q w w').
  { apply (selection_accepted_intro env q w ("date:" +:+ s)); try done.
    - apply matches_date_pattern_prefixed.
    - apply token_date_prefixed. }
  split; [done|].
  intros Hfree. by rewrite (before_colon_id s Hfree) in Hacc.
Qed.

Lemma date_token_accepted_unvalidated_witness :
  selection_accepted "not-a-date" (Sample.select 7 "date:not-a-date")
    (Sample.world 7 Sample.full_day (Some ASK_DATE) None)
    (process_update (Sample.env true true)
       (CallbackQueryUpdate (Sample.select 7 "date:not-a-date"))
       (Sample.world 7 Sample.full_day (Some ASK_DATE) None)).
Proof.
  refine (proj2 (date_token_accepted_unvalidated (Sample.env true true)
                   (Sample.select 7 "date:not-a-date")
                   (Sample.world 7 Sample.full_day (Some ASK_DATE) None)
                   "not-a-date" _ _ _ _) _).
  - reflexivity.
  - reflexivity.
  - intros Hb%user_has_booking_iff. vm_compute in Hb. discriminate Hb.
  - vm_compute. reflexivity.
  - reflexivity.
Defined.

(** ** Restarting with [/schedule] *)

Lemma schedule_start_run (env : Env) (m : Message) (w : World) :
  let today := dt_date (clock env (clock_reads w)) in
  horizon_in_range today →
  schedule_start env m w
  = (Ok (Some ASK_DATE),
     add_event
       (Sent (ReplyText (chat_id m) schedule_prompt
                (Some (date_button <$> filter (offerable today) (seqZ today 14)))))
       (tick w)).
Proof.
  intros today Hr.
  unfold schedule_start. run_monad.
  by rewrite (generate_spec env w Hr).
Qed.

(** C8, as the sentence has it, fails: user 7 waits in [ASK_DOC] with
    2024-01-10 chosen and sends [/schedule]; the conversation is back in
    [ASK_DATE], and the session still holds 2024-01-10. *)
Lemma schedule_keeps_chosen_date_counterexample :
  conversation_state (Sample.world 7 empty_db (Some ASK_DOC) (Some "2024-01-10")) 7 7
  = Some ASK_DOC
  ∧ message_command (Sample.command 7 "schedule") = Some "schedule"
  ∧ conversation_state
      (process_update (Sample.env true true)
         (MessageUpdate (Sample.command 7 "schedule"))
         (Sample.world 7 empty_db (Some ASK_DOC) (Some "2024-01-10"))) 7 7
    = Some ASK_DATE
  ∧ chosen_date
      (process_update (Sample.env true true)
         (MessageUpdate (Sample.command 7 "schedule"))
         (Sample.world 7 empty_db (Some ASK_DOC) (Some "2024-01-10"))) 7
    = Some "2024-01-10"
  ∧ ¬ chosen_date
        (process_update (Sample.env true true)
           (MessageUpdate (Sample.command 7 "schedule"))
           (Sample.world 7 empty_db (Some ASK_DOC) (Some "2024-01-10"))) 7
      = None.
Proof.
  split; [reflexivity|]. split; [reflexivity|].
  split; [by vm_compute|]. split; [by vm_compute|].
  intros Hnone. vm_compute in Hnone. discriminate Hnone.
Qed.

(** C8, amended.  When [/schedule] arrives in [ASK_DATE] or [ASK_DOC] (and
    the 14 days from the clock's date are dates of the calendar), the
    keyboard of the dates offerable on that day -- what
    [generate_next_two_weeks_buttons] returns -- is sent again under the
    prompt, and the conversation is in [ASK_DATE]; the session data, and
    with it a stored [chosen_date], and the table are left as they were. *)
Theorem schedule_restarts_at_ASK_DATE (env : Env) (m : Message) (w : World) (state : Z) :
  conversation_state w (chat_id m) (id (from_user m)) = Some state →
  state = ASK_DATE ∨ state = ASK_DOC →
  message_command m = Some "schedule" →
  horizon_in_range (dt_date (clock env (clock_reads w))) →
  let today := dt_date (clock env (clock_reads w)) in
  let w' := process_update env (MessageUpdate m) w in
  conversation_state w' (chat_id m) (id (from_user m)) = Some ASK_DATE
  ∧ user_data w' = user_data w
  ∧ chosen_date w' (id (from_user m)) = chosen_date w (id (from_user m))
  ∧ db w' = db w
  ∧ ∃ markup,
      generate_next_two_weeks_buttons env w = (Ok markup, tick w)
      ∧ markup = date_button <$> filter (offerable today) (seqZ today 14)
      ∧ trace w'
        = (trace w
           ++ [Sent (ReplyText (chat_id m)
                       ("Please select a booking date (only Sun" +:+ en_dash
                        +:+ "Thu, at least 2 days in advance):")
                       (Some markup))])%list.
Proof.
  intros Hstate Hcases Hcmd Hr today w'. subst w'.
  rewrite (process_schedule env m w state Hstate Hcases Hcmd).
  rewrite (schedule_start_run env m w Hr).
  cbn [fst snd update_state]. rewrite bool_decide_eq_false_2 by done.
  unfold conversation_state, chosen_date.
  cbn [trace db user_data conversations set_conversations add_event tick].
  rewrite lookup_insert_eq.
  do 4 (split; [done|]).
  eexists. split; [by apply generate_spec|]. done.
Qed.

Lemma schedule_restarts_at_ASK_DATE_witness :
  conversation_state
    (process_update (Sample.env true true)
       (MessageUpdate (Sample.command 7 "schedule"))
       (Sample.world 7 empty_db (Some ASK_DOC) (Some "2024-01-10"))) 7 7
  = Some ASK_DATE
  ∧ user_data
      (process_update (Sample.env true true)
         (MessageUpdate (Sample.command 7 "schedule"))
         (Sample.world 7 empty_db (Some ASK_DOC) (Some "2024-01-10")))
    = user_data (Sample.world 7 empty_db (Some ASK_DOC) (Some "2024-01-10")).
Proof.
  assert (Hr : horizon_in_range (ymd2ord 2024 1 1)) by (vm_compute; split; discriminate).
  destruct (schedule_restarts_at_ASK_DATE (Sample.env true true)
              (Sample.command 7 "schedule")
              (Sample.world 7 empty_db (Some ASK_DOC) (Some "2024-01-10"))
              ASK_DOC eq_refl (or_intror eq_refl) eq_refl Hr)
    as (Hstate & Hdata & _).
  split; [exact Hstate|exact Hdata].
Defined.

(** ** Submission and a failing dispatch *)

Lemma add_events_fields (evs : list Event) (w : World) :
  trace (add_events evs w) = (trace w ++ evs)%list
  ∧ db (add_events evs w) = db w
  ∧ user_data (add_events evs w) = user_data w
  ∧ conversations (add_events evs w) = conversations w.
Proof.
  revert w. induction evs as [|e evs IH]; intros w.
  - cbn. by rewrite app_nil_r.
  - cbn [add_events foldl]. fold (add_events evs (add_event e w)).
    destruct (IH (add_event e w)) as (-> & -> & -> & ->).
    cbn. by rewrite <- app_assoc.
Qed.

(** [submit_booking], run, when the row can be inserted: the row is
    written first; then both sends go through and the user gets the
    confirmation, or one of them fails, the error is logged and the user is
    sent the failure text -- and when that send fails too, its error leaves
    the handler. *)
Lemma submit_booking_run (env : Env) (m : Message) (date_str file_id : string)
    (file_name : option string) (w0 : World) :
  fits_int64 (id (from_user m)) = true →
  next_rowid (db w0) ≤ INT64_MAX →
  let booking_id := next_rowid (db w0) in
  let w1 := set_db (db_with (submitted_row env m date_str file_id file_name w0) (db w0))
              (tick w0) in
  let failed :=
    (failed_dispatch env (booking_caption booking_id (from_user m) date_str)
       file_id file_name (approve_reject_keyboard booking_id)
     ++ [Logged ("Failed to send to admin: " +:+ transport_error env)])%list in
  submit_booking env m date_str file_id file_name w0
  = if send_message_ok env && send_document_ok env then
      (Ok (Some END),
       add_events (dispatched env booking_id (from_user m) date_str file_id file_name
                   ++ [Sent (ReplyText (chat_id m) submitted_text None)])%list w1)
    else if failure_reply_ok env then
      (Ok (Some END),
       add_events (failed ++ [Sent (ReplyText (chat_id m) dispatch_failed_text None)])%list
         w1)
    else
      (Raise (TelegramError (transport_error env)),
       add_events
         (failed ++ [SendFailed (ReplyText (chat_id m) dispatch_failed_text None)])%list
         w1).
Proof.
  intros Hfits Hroom%Z.leb_le. cbv zeta.
  unfold submit_booking. unfold mbind at 1, M_bind at 1.
  rewrite add_booking_run, Hfits, Hroom.
  unfold failed_dispatch, dispatched. run_monad.
  by destruct (send_message_ok env), (send_document_ok env), (failure_reply_ok env).
Qed.

(** When the row cannot be inserted, [submit_booking] raises before
    anything is written or sent. *)
Lemma submit_booking_raises (env : Env) (m : Message) (date_str file_id : string)
    (file_name : option string) (w0 : World) :
  fits_int64 (id (from_user m)) = false ∨ INT64_MAX < next_rowid (db w0) →
  ∃ e, submit_booking env m date_str file_id file_name w0 = (Raise e, tick w0).
Proof.
  intros Hcases.
  unfold submit_booking. unfold mbind at 1, M_bind at 1. rewrite add_booking_run.
  destruct (fits_int64 _); [|by eexists].
  destruct Hcases as [?|Hfull%Z.leb_gt]; [done|].
  rewrite Hfull. by eexists.
Qed.

(** [receive_document] with a date in the session and an attachment goes
    on to [submit_booking], after one more clock reading for a photo. *)
Lemma receive_document_run (env : Env) (m : Message) (w : World) (d : string) :
  chosen_date w (id (from_user m)) = Some d →
  truthy d = true →
  is_Some (document m) ∨ photo m ≠ [] →
  ∃ (w0 : World) (file_id : string) (file_name : option string),
    receive_document env m w = submit_booking env m d file_id file_name w0
    ∧ attachment env m (clock env (clock_reads w)) = Some (file_id, file_name)
    ∧ (w0 = w ∨ w0 = tick w)
    ∧ (is_Some (document m) → w0 = w)
    ∧ (document m = None → w0 = tick w).
Proof.
  intros Hchosen Htruthy Hatt.
  unfold receive_document, attachment. run_monad.
  unfold chosen_date in Hchosen. rewrite Hchosen, Htruthy.
  destruct (document m) as [doc|] eqn:Hdoc.
  - exists w, (file_id doc), (file_name doc). repeat split; auto. done.
  - destruct Hatt as [[? ?]|Hphoto]; [done|].
    destruct (last (photo m)) as [file|] eqn:Hlast; [|by apply last_None in Hlast].
    unfold utcnow. cbv beta iota zeta.
    eexists (tick w), _, _. repeat split; auto.
    intros [? ?]. done.
Qed.

(** C3, as the sentence has it, fails: the transport is down for every
    send.  The row has been written with status PENDING, both the send to
    the administrator and the failure text for the user have been tried
    once and have failed; the second error leaves the handler, so the user
    has received nothing and the conversation is still in [ASK_DOC]. *)
Lemma failure_reply_fails_counterexample :
  conversation_state
    (process_update Sample.env_transport_down (MessageUpdate (Sample.document_message 7))
       (Sample.world 7 empty_db (Some ASK_DOC) (Some "2024-01-10"))) 7 7
  = Some ASK_DOC
  ∧ trace
      (process_update Sample.env_transport_down (MessageUpdate (Sample.document_message 7))
         (Sample.world 7 empty_db (Some ASK_DOC) (Some "2024-01-10")))
    = [SendFailed (SendMessage 1000 (booking_caption 1 (Sample.user 7) "2024-01-10"));
       Logged "Failed to send to admin: Timed out";
       SendFailed (ReplyText 7 "Failed to send booking to admin. Please contact support."
                     None)]
  ∧ b_status <$> rows (db
      (process_update Sample.env_transport_down (MessageUpdate (Sample.document_message 7))
         (Sample.world 7 empty_db (Some ASK_DOC) (Some "2024-01-10"))))
    = ["PENDING"]
  ∧ ¬ conversation_state
        (process_update Sample.env_transport_down (MessageUpdate (Sample.document_message 7))
           (Sample.world 7 empty_db (Some ASK_DOC) (Some "2024-01-10"))) 7 7
      = None.
Proof.
  split; [by vm_compute|]. split; [by vm_compute|]. split; [by vm_compute|].
  intros Hnone. vm_compute in Hnone. discriminate Hnone.
Qed.

(** C3, amended.  In [ASK_DOC] with a date in the session, when a document
    or a photo arrives, its row can be inserted, and one of the two sends
    to the administrator fails: a row with status PENDING for the user and
    the date has been appended to the table and stays there; the
    administrator's chat saw each send tried at most once (the caption and
    then the failed document, or only the failed caption); the error is
    logged with its text; and the failure text is sent to the user, once.
    When that send goes through the conversation has ended; when it fails
    as well, its error is not caught and the conversation stays in
    [ASK_DOC]. *)
Theorem dispatch_failure_leaves_pending_booking (env : Env) (m : Message) (w : World)
    (d : string) :
  conversation_state w (chat_id m) (id (from_user m)) = Some ASK_DOC →
  chosen_date w (id (from_user m)) = Some d →
  truthy d = true →
  is_Some (document m) ∨ photo m ≠ [] →
  fits_int64 (id (from_user m)) = true →
  next_rowid (db w) ≤ INT64_MAX →
  send_message_ok env = false ∨ send_document_ok env = false →
  let w' := process_update env (MessageUpdate m) w in
  ∃ bk : Booking,
    rows (db w') = (rows (db w) ++ [bk])%list
    ∧ b_id bk = next_rowid (db w)
    ∧ b_status bk = "PENDING"
    ∧ b_user_id bk = id (from_user m)
    ∧ b_date bk = d
    ∧ attachment env m (clock env (clock_reads w))
      = Some (b_doc_file_id bk, b_doc_file_name bk)
    ∧ user_data w' = user_data w
    ∧ (failure_reply_ok env = true →
       conversation_state w' (chat_id m) (id (from_user m)) = None
       ∧ trace w'
         = (trace w
            ++ failed_dispatch env (booking_caption (b_id bk) (from_user m) d)
                 (b_doc_file_id bk) (b_doc_file_name bk) (approve_reject_keyboard (b_id bk))
            ++ [Logged ("Failed to send to admin: " +:+ transport_error env);
                Sent (ReplyText (chat_id m)
                        "Failed to send booking to admin. Please contact support." None)])%list)
    ∧ (failure_reply_ok env = false →
       conversation_state w' (chat_id m) (id (from_user m)) = Some ASK_DOC
       ∧ trace w'
         = (trace w
            ++ failed_dispatch env (booking_caption (b_id bk) (from_user m) d)
                 (b_doc_file_id bk) (b_doc_file_name bk) (approve_reject_keyboard (b_id bk))
            ++ [Logged ("Failed to send to admin: " +:+ transport_error env);
                SendFailed (ReplyText (chat_id m)
                        "Failed to send booking to admin. Please contact support." None)])%list).
Proof.
  intros Hstate Hchosen Htruthy Hatt Hfits Hroom Hfail w'. subst w'.
  rewrite (process_attachment env m w Hstate Hatt).
  destruct (receive_document_run env m w d Hchosen Htruthy Hatt)
    as (w0 & fid & fname & -> & Hattach & Hw0 & _).
  assert (Hdb0 : db w0 = db w) by (by destruct Hw0 as [-> | ->]).
  assert (Htrace0 : trace w0 = trace w) by (by destruct Hw0 as [-> | ->]).
  assert (Hud0 : user_data w0 = user_data w) by (by destruct Hw0 as [-> | ->]).
  assert (Hconv0 : conversations w0 = conversations w) by (by destruct Hw0 as [-> | ->]).
  rewrite <- Hdb0 in Hroom.
  rewrite (submit_booking_run env m d fid fname w0 Hfits Hroom). cbv zeta.
  assert (Hnot : send_message_ok env && send_document_ok env = false).
  { destruct Hfail as [-> | ->]; [done|apply andb_false_r]. }
  rewrite Hnot.
  exists (submitted_row env m d fid fname w0).
  unfold conversation_state in *.
  destruct (failure_reply_ok env);
    cbn [fst snd update_state];
    rewrite ?bool_decide_eq_true_2 by done;
    cbn [conversations db trace user_data set_conversations];
    match goal with
    | |- context [add_events ?evs ?w1] =>
        destruct (add_events_fields evs w1) as (-> & -> & -> & ->)
    end;
    cbn [conversations db trace user_data rows set_db tick db_with submitted_row
         b_id b_status b_user_id b_date b_doc_file_id b_doc_file_name];
    rewrite ?lookup_delete_eq, ?Hdb0, ?Htrace0, ?Hud0, ?Hconv0, <- ?app_assoc;
    repeat split; try done; intros; try discriminate; done.
Qed.

Lemma dispatch_failure_leaves_pending_booking_witness :
  ∃ bk : Booking,
    rows (db (process_update Sample.env_transport_down
                (MessageUpdate (Sample.document_message 7))
                (Sample.world 7 empty_db (Some ASK_DOC) (Some "2024-01-10"))))
    = [bk]
    ∧ b_status bk = "PENDING".
Proof.
  destruct (dispatch_failure_leaves_pending_booking Sample.env_transport_down
              (Sample.document_message 7)
              (Sample.world 7 empty_db (Some ASK_DOC) (Some "2024-01-10"))
              "2024-01-10" eq_refl eq_refl eq_refl
              (or_introl (ex_intro _ _ eq_refl)) eq_refl)
    as (bk & Hrows & _ & Hstatus & _).
  - vm_compute. discriminate.
  - left. reflexivity.
  - exists bk. split; [exact Hrows|exact Hstatus].
Defined.

(** ** Input that is no file, in [ASK_DOC] *)

(** What [receive_document] itself does with a message that carries no
    document and no photo, a date being in the session: it sends the
    re-prompt and stays in [ASK_DOC]. *)
Lemma receive_document_reprompts (env : Env) (m : Message) (w : World) (d : string) :
  chosen_date w (id (from_user m)) = Some d →
  truthy d = true →
  document m = None → photo m = [] →
  receive_document env m w
  = (Ok (Some ASK_DOC), add_event (Sent (ReplyText (chat_id m) reprompt_text None)) w).
Proof.
  intros Hchosen Htruthy Hdoc Hphoto.
  unfold receive_document. run_monad.
  unfold chosen_date in Hchosen. by rewrite Hchosen, Htruthy, Hdoc, Hphoto.
Qed.

(** C9.  User 7 waits in [ASK_DOC] with 2024-01-10 chosen and sends the
    text "hello".  [receive_document] would answer it with the re-prompt
    and stay in [ASK_DOC]; but the update matches no handler, so the
    dispatcher never calls it: the world after the update is the world
    before it, with nothing sent. *)
Theorem text_in_ASK_DOC_is_not_reprompted :
  conversation_state (Sample.world 7 empty_db (Some ASK_DOC) (Some "2024-01-10")) 7 7
  = Some ASK_DOC
  ∧ document (Sample.text_message 7 "hello") = None
  ∧ photo (Sample.text_message 7 "hello") = []
  ∧ receive_document (Sample.env true true) (Sample.text_message 7 "hello")
      (Sample.world 7 empty_db (Some ASK_DOC) (Some "2024-01-10"))
    = (Ok (Some ASK_DOC),
       add_event (Sent (ReplyText 7 reprompt_text None))
         (Sample.world 7 empty_db (Some ASK_DOC) (Some "2024-01-10")))
  ∧ process_update (Sample.env true true) (MessageUpdate (Sample.text_message 7 "hello"))
      (Sample.world 7 empty_db (Some ASK_DOC) (Some "2024-01-10"))
    = Sample.world 7 empty_db (Some ASK_DOC) (Some "2024-01-10")
  ∧ trace (process_update (Sample.env true true)
             (MessageUpdate (Sample.text_message 7 "hello"))
             (Sample.world 7 empty_db (Some ASK_DOC) (Some "2024-01-10")))
    = [].
Proof.
  split; [reflexivity|]. split; [reflexivity|]. split; [reflexivity|].
  split; [by apply (receive_document_reprompts (Sample.env true true)
                      (Sample.text_message 7 "hello") _ "2024-01-10")|].
  assert (Hsame : process_update (Sample.env true true)
                    (MessageUpdate (Sample.text_message 7 "hello"))
                    (Sample.world 7 empty_db (Some ASK_DOC) (Some "2024-01-10"))
                  = Sample.world 7 empty_db (Some ASK_DOC) (Some "2024-01-10"))
    by (by apply process_other_in_ASK_DOC).
  split; [exact Hsame|]. by rewrite Hsame.
Qed.

(** * Further properties of the dispatcher and the handlers *)

(** ** Which handler an update reaches *)

Lemma conv_states_other (state : Z) :
  state ≠ ASK_DATE → state ≠ ASK_DOC → states conv_handler !! state = None.
Proof.
  intros Hd Hdoc. unfold conv_handler, states.
  rewrite lookup_insert_ne by done. by apply lookup_singleton_ne.
Qed.

(** The handlers of a state see nothing in a command other than [/schedule]. *)
Lemma state_handlers_skip_command (env : Env) (state : Z) (m : Message) (c : string) :
  message_command m = Some c → c ≠ "schedule" →
  first_match env (default [] (states conv_handler !! state)) (MessageUpdate m) = None.
Proof.
  intros Hcmd Hc.
  destruct (command_content m c Hcmd) as [Hdoc Hphoto].
  destruct (decide (state = ASK_DATE)) as [->|Hdate].
  { rewrite conv_states_ASK_DATE.
    cbn [from_option Datatypes.id first_match check_update]. rewrite Hcmd.
    by rewrite bool_decide_eq_false_2 by congruence. }
  destruct (decide (state = ASK_DOC)) as [->|Hdocst].
  { rewrite conv_states_ASK_DOC.
    cbn [from_option Datatypes.id first_match check_update].
    unfold filters.Document_ALL, filters.PHOTO.
    rewrite Hdoc, Hphoto, Hcmd. cbn [orb andb].
    rewrite (bool_decide_eq_false_2 (is_Some None)) by (intros [? ?]; discriminate).
    cbn [orb andb].
    by rewrite bool_decide_eq_false_2 by congruence. }
  by rewrite conv_states_other.
Qed.

Lemma command_is_COMMAND (m : Message) (c : string) :
  message_command m = Some c → filters.COMMAND m = true.
Proof. intros Hcmd. unfold filters.COMMAND. rewrite Hcmd. by apply bool_decide_eq_true_2. Qed.

(** A command no handler is registered for ends at [unknown]. *)
Lemma process_unhandled_command (env : Env) (m : Message) (w : World) (c : string) :
  message_command m = Some c →
  c ∉ handled_commands →
  process_update env (MessageUpdate m) w
  = add_event (Sent (ReplyText (chat_id m) unknown_text None)) w.
Proof.
  intros Hcmd Hc.
  assert (c ≠ "start" ∧ c ≠ "schedule" ∧ c ≠ "cancel") as (Hs & Hsch & Hcan).
  { unfold handled_commands in Hc. rewrite !not_elem_of_cons in Hc. tauto. }
  unfold process_update, conversation_check.
  cbn [check_update conversation_key]. rewrite Hcmd.
  rewrite bool_decide_eq_false_2 by congruence.
  assert (Hfb : first_match env (fallbacks conv_handler) (MessageUpdate m) = None).
  { cbn [conv_handler fallbacks first_match check_update]. rewrite Hcmd.
    by rewrite bool_decide_eq_false_2 by congruence. }
  assert (Hep : first_match env (entry_points conv_handler) (MessageUpdate m) = None).
  { cbn [conv_handler entry_points first_match check_update]. rewrite Hcmd.
    by rewrite bool_decide_eq_false_2 by congruence. }
  rewrite (command_is_COMMAND m c Hcmd).
  destruct (conversations w !! (chat_id m, id (from_user m))) as [state|].
  - by rewrite (state_handlers_skip_command env state m c Hcmd Hsch), Hfb.
  - by rewrite Hep.
Qed.

(** X1.  A command other than [/start], [/schedule] and [/cancel] is
    answered with the not-understood text in every state of the
    conversation, and changes nothing else: the conversation, when there is
    one, goes on where it was. *)
Theorem unhandled_command_not_understood (env : Env) (m : Message) (w : World) (c : string) :
  message_command m = Some c →
  c ∉ handled_commands →
  let w' := process_update env (MessageUpdate m) w in
  trace w' = (trace w ++ [Sent (ReplyText (chat_id m) unknown_text None)])%list
  ∧ conversations w' = conversations w
  ∧ user_data w' = user_data w
  ∧ db w' = db w.
Proof.
  intros Hcmd Hc w'. subst w'.
  by rewrite (process_unhandled_command env m w c Hcmd Hc).
Qed.

Lemma unhandled_command_not_understood_witness :
  trace (process_update (Sample.env true true) (MessageUpdate (Sample.command 7 "status"))
           (Sample.world 7 empty_db (Some ASK_DOC) (Some "2024-01-10")))
  = [Sent (ReplyText 7 unknown_text None)]
  ∧ conversations
      (process_update (Sample.env true true) (MessageUpdate (Sample.command 7 "status"))
         (Sample.world 7 empty_db (Some ASK_DOC) (Some "2024-01-10")))
    = conversations (Sample.world 7 empty_db (Some ASK_DOC) (Some "2024-01-10")).
Proof.
  assert (Hc : "status" ∉ handled_commands).
  { intros Hin. unfold handled_commands in Hin. not_in_list Hin. }
  destruct (unhandled_command_not_understood (Sample.env true true)
              (Sample.command 7 "status")
              (Sample.world 7 empty_db (Some ASK_DOC) (Some "2024-01-10"))
              "status" eq_refl Hc) as (Htrace & Hconv & _).
  split; [exact Htrace|exact Hconv].
Defined.

(** X2.  Every command of the menu that [set_commands] registers is either
    one of [/start], [/schedule], [/cancel], or one of [/mybookings] and
    [/pending]; for these two no handler exists, and they are answered with
    the not-understood text whatever the state. *)
Theorem menu_commands_without_handler (c : string) :
  c ∈ (fst <$> set_commands) →
  c ∈ handled_commands
  ∨ (c ∈ ["mybookings"; "pending"]
     ∧ ∀ env m w,
         message_command m = Some c →
         process_update env (MessageUpdate m) w
         = add_event (Sent (ReplyText (chat_id m) unknown_text None)) w).
Proof.
  change (fst <$> set_commands)
    with ["start"; "schedule"; "mybookings"; "pending"; "cancel"].
  intros Hmenu. rewrite !elem_of_cons in Hmenu.
  destruct Hmenu as [->|[->|[->|[->|[->|Hnil]]]]]; [| | | | |by apply elem_of_nil in Hnil].
  - left. unfold handled_commands. rewrite !elem_of_cons. auto.
  - left. unfold handled_commands. rewrite !elem_of_cons. auto.
  - right. split; [rewrite !elem_of_cons; auto|].
    intros env m w Hcmd. apply (process_unhandled_command env m w _ Hcmd).
    intros Hin. unfold handled_commands in Hin. not_in_list Hin.
  - right. split; [rewrite !elem_of_cons; auto|].
    intros env m w Hcmd. apply (process_unhandled_command env m w _ Hcmd).
    intros Hin. unfold handled_commands in Hin. not_in_list Hin.
  - left. unfold handled_commands. rewrite !elem_of_cons. auto.
Qed.

Lemma menu_commands_without_handler_witness :
  "pending" ∈ handled_commands
  ∨ ("pending" ∈ ["mybookings"; "pending"]
     ∧ ∀ env m w,
         message_command m = Some "pending" →
         process_update env (MessageUpdate m) w
         = add_event (Sent (ReplyText (chat_id m) unknown_text None)) w).
Proof.
  apply (menu_commands_without_handler "pending").
  vm_compute. do 3 right. left.
Defined.

(** X3.  [/start] is answered with the welcome text in every state, before
    the conversation handler sees it: a conversation under way stays in its
    state, and session and table are untouched. *)
Theorem start_leaves_conversation_alone (env : Env) (m : Message) (w : World) :
  message_command m = Some "start" →
  process_update env (MessageUpdate m) w
  = add_event (Sent (ReplyText (chat_id m) welcome_text None)) w.
Proof.
  intros Hcmd. unfold process_update. cbn [check_update]. rewrite Hcmd.
  by rewrite bool_decide_eq_true_2 by done.
Qed.

Lemma start_leaves_conversation_alone_witness :
  process_update (Sample.env true true) (MessageUpdate (Sample.command 7 "start"))
    (Sample.world 7 empty_db (Some ASK_DOC) (Some "2024-01-10"))
  = add_event (Sent (ReplyText 7 welcome_text None))
      (Sample.world 7 empty_db (Some ASK_DOC) (Some "2024-01-10")).
Proof.
  apply (start_leaves_conversation_alone (Sample.env true true)
           (Sample.command 7 "start")
           (Sample.world 7 empty_db (Some ASK_DOC) (Some "2024-01-10"))).
  reflexivity.
Defined.

(** [/cancel] reaches [cancel] whenever a conversation is under way. *)
Lemma process_cancel (env : Env) (m : Message) (w : World) (state : Z) :
  conversations w !! (chat_id m, id (from_user m)) = Some state →
  message_command m = Some "cancel" →
  process_update env (MessageUpdate m) w
  = set_conversations (delete (chat_id m, id (from_user m)) (conversations w))
      (add_event (Sent (ReplyText (chat_id m) canceled_text None)) w).
Proof.
  intros Hstate Hcmd.
  unfold process_update, conversation_check.
  cbn [check_update conversation_key]. rewrite Hcmd, Hstate.
  rewrite bool_decide_eq_false_2 by discriminate.
  rewrite (state_handlers_skip_command env state m "cancel" Hcmd) by discriminate.
  cbn [conv_handler fallbacks first_match check_update]. rewrite Hcmd.
  by rewrite bool_decide_eq_true_2 by done.
Qed.

(** X4.  [/cancel] during a conversation, in whichever state, sends the
    cancellation text and ends the conversation; the table is untouched,
    and so is the session: a [chosen_date] stored before stays stored. *)
Theorem cancel_ends_conversation (env : Env) (m : Message) (w : World) (state : Z) :
  conversation_state w (chat_id m) (id (from_user m)) = Some state →
  message_command m = Some "cancel" →
  let w' := process_update env (MessageUpdate m) w in
  conversation_state w' (chat_id m) (id (from_user m)) = None
  ∧ trace w' = (trace w ++ [Sent (ReplyText (chat_id m) canceled_text None)])%list
  ∧ db w' = db w
  ∧ user_data w' = user_data w
  ∧ chosen_date w' (id (from_user m)) = chosen_date w (id (from_user m)).
Proof.
  intros Hstate Hcmd w'. subst w'.
  rewrite (process_cancel env m w state Hstate Hcmd).
  unfold conversation_state, chosen_date.
  cbn [trace db user_data conversations set_conversations add_event].
  by rewrite lookup_delete_eq.
Qed.

Lemma cancel_ends_conversation_witness :
  conversation_state
    (process_update (Sample.env true true) (MessageUpdate (Sample.command 7 "cancel"))
       (Sample.world 7 empty_db (Some ASK_DOC) (Some "2024-01-10"))) 7 7
  = None
  ∧ chosen_date
      (process_update (Sample.env true true) (MessageUpdate (Sample.command 7 "cancel"))
         (Sample.world 7 empty_db (Some ASK_DOC) (Some "2024-01-10"))) 7
    = Some "2024-01-10".
Proof.
  destruct (cancel_ends_conversation (Sample.env true true) (Sample.command 7 "cancel")
              (Sample.world 7 empty_db (Some ASK_DOC) (Some "2024-01-10"))
              ASK_DOC eq_refl eq_refl) as (Hstate & _ & _ & _ & Hchosen).
  split; [exact Hstate|]. exact (eq_trans Hchosen eq_refl).
Defined.

(** X5.  [/cancel] with no conversation under way is not a cancellation:
    [cancel] is registered as a fallback only, so the command falls through
    to [unknown] and is answered with the not-understood text. *)
Theorem cancel_when_idle_not_understood (env : Env) (m : Message) (w : World) :
  conversation_state w (chat_id m) (id (from_user m)) = None →
  message_command m = Some "cancel" →
  process_update env (MessageUpdate m) w
  = add_event (Sent (ReplyText (chat_id m) unknown_text None)) w.
Proof.
  intros Hstate Hcmd.
  unfold process_update, conversation_check.
  cbn [check_update conversation_key]. rewrite Hcmd.
  unfold conversation_state in Hstate. rewrite Hstate.
  rewrite bool_decide_eq_false_2 by discriminate.
  cbn [conv_handler entry_points first_match check_update]. rewrite Hcmd.
  rewrite bool_decide_eq_false_2 by discriminate.
  by rewrite (command_is_COMMAND m _ Hcmd).
Qed.

Lemma cancel_when_idle_not_understood_witness :
  process_update (Sample.env true true) (MessageUpdate (Sample.command 7 "cancel"))
    (Sample.world 7 empty_db None None)
  = add_event (Sent (ReplyText 7 unknown_text None)) (Sample.world 7 empty_db None None).
Proof.
  apply (cancel_when_idle_not_understood (Sample.env true true)
           (Sample.command 7 "cancel") (Sample.world 7 empty_db None None)).
  - reflexivity.
  - reflexivity.
Defined.

(** [/schedule] with no conversation under way reaches [schedule_start]
    through the entry point. *)
Lemma process_schedule_idle (env : Env) (m : Message) (w : World) :
  conversations w !! (chat_id m, id (from_user m)) = None →
  message_command m = Some "schedule" →
  process_update env (MessageUpdate m) w
  = update_state (chat_id m, id (from_user m))
      (schedule_start env m w).1 (schedule_start env m w).2.
Proof.
  intros Hstate Hcmd.
  unfold process_update, conversation_check.
  cbn [check_update conversation_key]. rewrite Hcmd, Hstate.
  rewrite bool_decide_eq_false_2 by discriminate.
  cbn [conv_handler entry_points first_match check_update]. rewrite Hcmd.
  rewrite bool_decide_eq_true_2 by done.
  by destruct (schedule_start env m w).
Qed.

(** A callback query outside [ASK_DATE], or one whose data does not start
    with ["date:"], matches no handler. *)
Lemma process_callback_unmatched (env : Env) (q : CallbackQuery) (w : World) :
  conversations w !! (cq_chat_id q, id (cq_from_user q)) ≠ Some ASK_DATE
  ∨ (∀ data, cq_data q = Some data → matches_date_pattern data = false) →
  process_update env (CallbackQueryUpdate q) w = w.
Proof.
  intros Hcases.
  unfold process_update, conversation_check.
  cbn [check_update conversation_key conv_handler entry_points fallbacks first_match].
  destruct (conversations w !! (cq_chat_id q, id (cq_from_user q))) as [state|] eqn:Hst;
    [|done].
  destruct (decide (state = ASK_DATE)) as [->|Hdate].
  - destruct Hcases as [Hne|Hpat]; [done|].
    change (states _ !! ASK_DATE) with (states conv_handler !! ASK_DATE).
    rewrite conv_states_ASK_DATE.
    cbn [from_option Datatypes.id first_match check_update].
    destruct (cq_data q) as [data|]; [|done].
    by rewrite (Hpat data eq_refl).
  - destruct (decide (state = ASK_DOC)) as [->|Hdoc].
    + change (states _ !! ASK_DOC) with (states conv_handler !! ASK_DOC).
      by rewrite conv_states_ASK_DOC.
    + change (states _ !! state) with (states conv_handler !! state).
      by rewrite conv_states_other.
Qed.

(** X6.  A button pressed outside the date step does nothing: unless the
    conversation waits for a date and the callback data starts with
    ["date:"], a callback query reaches no handler; it is not even
    answered, and the world after it is the world before it. *)
Theorem stale_callback_ignored (env : Env) (q : CallbackQuery) (w : World) :
  conversation_state w (cq_chat_id q) (id (cq_from_user q)) ≠ Some ASK_DATE
  ∨ (∀ data, cq_data q = Some data → matches_date_pattern data = false) →
  process_update env (CallbackQueryUpdate q) w = w
  ∧ trace (process_update env (CallbackQueryUpdate q) w) = trace w
  ∧ chosen_date (process_update env (CallbackQueryUpdate q) w) (id (cq_from_user q))
    = chosen_date w (id (cq_from_user q)).
Proof.
  intros Hcases. by rewrite (process_callback_unmatched env q w Hcases).
Qed.

Lemma stale_callback_ignored_witness :
  process_update (Sample.env true true)
    (CallbackQueryUpdate (Sample.select 7 "date:2024-01-10"))
    (Sample.world 7 empty_db (Some ASK_DOC) (Some "2024-01-03"))
  = Sample.world 7 empty_db (Some ASK_DOC) (Some "2024-01-03").
Proof.
  refine (proj1 (stale_callback_ignored (Sample.env true true)
                   (Sample.select 7 "date:2024-01-10")
                   (Sample.world 7 empty_db (Some ASK_DOC) (Some "2024-01-03")) _)).
  left. vm_compute. discriminate.
Defined.

(** ** Uploads *)

Lemma db_update_state (key : Z * Z) (r : outcome (option Z)) (w : World) :
  db (update_state key r w) = db w
  ∧ trace (update_state key r w) = trace w
  ∧ user_data (update_state key r w) = user_data w.
Proof.
  unfold update_state. destruct r as [[state|]|e]; [|done..].
  by case_bool_decide.
Qed.

(** Whatever happens in it, [submit_booking] leaves the table alone or
    inserts its one row, and touches neither sessions nor conversations. *)
Lemma submit_booking_effect (env : Env) (m : Message) (date_str file_id : string)
    (file_name : option string) (w0 : World) :
  ∃ r w',
    submit_booking env m date_str file_id file_name w0 = (r, w')
    ∧ callback_result_ok r
    ∧ (db w' = db w0
       ∨ db w' = db_with (submitted_row env m date_str file_id file_name w0) (db w0))
    ∧ user_data w' = user_data w0
    ∧ conversations w' = conversations w0
    ∧ ∃ evs, trace w' = (trace w0 ++ evs)%list.
Proof.
  destruct (fits_int64 (id (from_user m))) eqn:Hfits;
    [destruct (decide (next_rowid (db w0) ≤ INT64_MAX)) as [Hroom|Hfull]|].
  - rewrite (submit_booking_run env m date_str file_id file_name w0 Hfits Hroom). cbv zeta.
    destruct (send_message_ok env && send_document_ok env);
      [|destruct (failure_reply_ok env)];
      (eexists _, _; split; [reflexivity|]);
      match goal with
      | |- context [add_events ?evs ?w1] =>
          destruct (add_events_fields evs w1) as (-> & -> & -> & ->)
      end;
      cbn [callback_result_ok db trace user_data conversations set_db tick];
      unfold END; repeat split; auto; by eexists.
  - destruct (submit_booking_raises env m date_str file_id file_name w0) as [e ->];
      [right; lia|].
    eexists _, _. split; [reflexivity|]. cbn. repeat split; auto.
    exists []. by rewrite app_nil_r.
  - destruct (submit_booking_raises env m date_str file_id file_name w0) as [e ->];
      [by left|].
    eexists _, _. split; [reflexivity|]. cbn. repeat split; auto.
    exists []. by rewrite app_nil_r.
Qed.

Lemma attachment_present (env : Env) (m : Message) (now : datetime) (a : string * option string) :
  attachment env m now = Some a → is_Some (document m) ∨ photo m ≠ [].
Proof.
  unfold attachment. destruct (document m); [by left; eexists|].
  destruct (photo m); [done|]. by right.
Qed.

Lemma attachment_exists (env : Env) (m : Message) (now : datetime) :
  is_Some (document m) ∨ photo m ≠ [] → is_Some (attachment env m now).
Proof.
  unfold attachment. intros [[doc ->]|Hphoto]; [by eexists|].
  destruct (document m); [by eexists|].
  destruct (last (photo m)) eqn:Hlast; [by eexists|].
  by apply last_None in Hlast.
Qed.

(** [receive_document] on a message with an attachment and a date in the
    session, when the row can be inserted. *)
Lemma receive_document_effect (env : Env) (m : Message) (w : World) (d file_id : string)
    (file_name : option string) :
  chosen_date w (id (from_user m)) = Some d →
  truthy d = true →
  attachment env m (clock env (clock_reads w)) = Some (file_id, file_name) →
  fits_int64 (id (from_user m)) = true →
  next_rowid (db w) ≤ INT64_MAX →
  ∃ (bk : Booking) (r : outcome (option Z)) (w' : World),
    receive_document env m w = (r, w')
    ∧ db w' = db_with bk (db w)
    ∧ b_id bk = next_rowid (db w)
    ∧ b_status bk = "PENDING"
    ∧ b_user_id bk = id (from_user m)
    ∧ b_username bk = default EmptyString (username (from_user m))
    ∧ b_date bk = d
    ∧ b_doc_file_id bk = file_id
    ∧ b_doc_file_name bk = file_name
    ∧ (document m = None → b_created_at bk = dt_isoformat (clock env (S (clock_reads w))))
    ∧ user_data w' = user_data w
    ∧ conversations w' = conversations w
    ∧ (send_message_ok env = true → send_document_ok env = true →
       r = Ok (Some END)
       ∧ trace w'
         = (trace w
            ++ dispatched env (next_rowid (db w)) (from_user m) d file_id file_name
            ++ [Sent (ReplyText (chat_id m) submitted_text None)])%list).
Proof.
  intros Hchosen Htruthy Hatt Hfits Hroom.
  destruct (receive_document_run env m w d Hchosen Htruthy
              (attachment_present _ _ _ _ Hatt))
    as (w0 & fid & fname & -> & Hattach & Hw0 & _ & Hphoto).
  rewrite Hatt in Hattach. injection Hattach as <- <-.
  assert (Hdb0 : db w0 = db w) by (by destruct Hw0 as [-> | ->]).
  assert (Htrace0 : trace w0 = trace w) by (by destruct Hw0 as [-> | ->]).
  assert (Hud0 : user_data w0 = user_data w) by (by destruct Hw0 as [-> | ->]).
  assert (Hconv0 : conversations w0 = conversations w) by (by destruct Hw0 as [-> | ->]).
  rewrite <- Hdb0 in Hroom.
  rewrite (submit_booking_run env m d file_id file_name w0 Hfits Hroom). cbv zeta.
  set (w1 := set_db _ (tick w0)).
  match goal with
  | |- context [if _ then (?r1, add_events ?e1 w1)
                else if _ then (?r2, add_events ?e2 w1) else (?r3, add_events ?e3 w1)] =>
      assert (Hcases : ∃ r evs,
                (if send_message_ok env && send_document_ok env then (r1, add_events e1 w1)
                 else if failure_reply_ok env then (r2, add_events e2 w1)
                 else (r3, add_events e3 w1))
                = (r, add_events evs w1)
                ∧ (send_message_ok env = true → send_document_ok env = true →
                   r = r1 ∧ evs = e1))
  end.
  { destruct (send_message_ok env), (send_document_ok env); cbn [andb];
      try destruct (failure_reply_ok env); eexists _, _; (split; [reflexivity|]);
      intros; by try discriminate. }
  destruct Hcases as (r & evs & -> & Hok).
  exists (submitted_row env m d file_id file_name w0), r, (add_events evs w1).
  split; [reflexivity|].
  destruct (add_events_fields evs w1) as (Htrace & -> & -> & ->).
  subst w1.
  cbn [db trace user_data conversations set_db tick submitted_row
       b_id b_status b_user_id b_username b_date b_doc_file_id b_doc_file_name
       b_created_at].
  do 8 (split; [by rewrite ?Hdb0|]).
  split; [intros Hnone; by rewrite (Hphoto Hnone)|].
  split; [done|]. split; [done|].
  intros Hm Hd. destruct (Hok Hm Hd) as [-> ->]. split; [done|].
  rewrite Htrace. cbn [trace set_db tick]. by rewrite Htrace0, Hdb0.
Qed.

(** X7.  In [ASK_DOC] with a date [d] in the session, a document or photo
    whose row can be inserted and whose two sends to the administrator go
    through: one PENDING row for the user, [d] and the attachment is
    appended under the next id; the administrator gets the caption and then
    the file with an Approve and a Reject button tagged with that id; the
    user gets the confirmation; the conversation has ended. *)
Theorem upload_submits_booking (env : Env) (m : Message) (w : World) (d file_id : string)
    (file_name : option string) :
  conversation_state w (chat_id m) (id (from_user m)) = Some ASK_DOC →
  chosen_date w (id (from_user m)) = Some d →
  truthy d = true →
  attachment env m (clock env (clock_reads w)) = Some (file_id, file_name) →
  fits_int64 (id (from_user m)) = true →
  next_rowid (db w) ≤ INT64_MAX →
  send_message_ok env = true → send_document_ok env = true →
  let w' := process_update env (MessageUpdate m) w in
  let booking_id := next_rowid (db w) in
  ∃ bk : Booking,
    rows (db w') = (rows (db w) ++ [bk])%list
    ∧ b_id bk = booking_id ∧ b_status bk = "PENDING"
    ∧ b_user_id bk = id (from_user m) ∧ b_date bk = d
    ∧ b_doc_file_id bk = file_id ∧ b_doc_file_name bk = file_name
    ∧ trace w'
      = (trace w
         ++ [Sent (SendMessage (ADMIN_ID env) (booking_caption booking_id (from_user m) d));
             Sent (SendDocument (ADMIN_ID env) file_id file_name
                     [[ {| button_text := "Approve";
                           callback_data := "approve:" +:+ pretty booking_id |};
                        {| button_text := "Reject";
                           callback_data := "reject:" +:+ pretty booking_id |} ]]);
             Sent (ReplyText (chat_id m) submitted_text None)])%list
    ∧ conversation_state w' (chat_id m) (id (from_user m)) = None.
Proof.
  intros Hstate Hchosen Htruthy Hatt Hfits Hroom Hm Hd w' booking_id. subst w' booking_id.
  rewrite (process_attachment env m w Hstate (attachment_present _ _ _ _ Hatt)).
  destruct (receive_document_effect env m w d file_id file_name Hchosen Htruthy Hatt
              Hfits Hroom)
    as (bk & r & w' & -> & Hdb & Hid & Hst & Hu & _ & Hdate & Hfid & Hfn & _ & _ & _ & Hok).
  destruct (Hok Hm Hd) as [-> Htrace].
  exists bk. cbn [fst snd update_state].
  rewrite bool_decide_eq_true_2 by done.
  unfold conversation_state.
  cbn [trace db user_data conversations set_conversations].
  rewrite lookup_delete_eq, Hdb, Htrace. done.
Qed.

Lemma upload_submits_booking_witness :
  ∃ bk : Booking,
    rows (db (process_update (Sample.env true true)
                (MessageUpdate (Sample.document_message 7))
                (Sample.world 7 empty_db (Some ASK_DOC) (Some "2024-01-10"))))
    = [bk]
    ∧ b_id bk = 1 ∧ b_status bk = "PENDING" ∧ b_date bk = "2024-01-10".
Proof.
  destruct (upload_submits_booking (Sample.env true true) (Sample.document_message 7)
              (Sample.world 7 empty_db (Some ASK_DOC) (Some "2024-01-10"))
              "2024-01-10" "FILE-1" (Some "form.pdf")
              eq_refl eq_refl eq_refl eq_refl eq_refl)
    as (bk & Hrows & Hid & Hst & _ & Hdate & _).
  - vm_compute. discriminate.
  - reflexivity.
  - reflexivity.
  - exists bk. auto.
Defined.

(** X8.  Of a photo whose row can be inserted, the file stored is the last
    size of the list, under the name photo_<user id>_<seconds>.jpg, the
    seconds being [int(utcnow().timestamp())] of the first clock reading of
    the handler as the machine computes it; the row's creation time is the
    second reading. *)
Theorem photo_upload_uses_last_size (env : Env) (m : Message) (w : World) (d : string)
    (sizes : list PhotoSize) (file : PhotoSize) :
  conversation_state w (chat_id m) (id (from_user m)) = Some ASK_DOC →
  chosen_date w (id (from_user m)) = Some d →
  truthy d = true →
  content m = PhotoContent sizes →
  last sizes = Some file →
  fits_int64 (id (from_user m)) = true →
  next_rowid (db w) ≤ INT64_MAX →
  let w' := process_update env (MessageUpdate m) w in
  ∃ bk : Booking,
    rows (db w') = (rows (db w) ++ [bk])%list
    ∧ b_doc_file_id bk = photo_file_id file
    ∧ b_doc_file_name bk
      = Some ("photo_" +:+ pretty (id (from_user m)) +:+ "_"
              +:+ pretty (int_timestamp env (clock env (clock_reads w)))
              +:+ ".jpg")
    ∧ b_created_at bk = dt_isoformat (clock env (S (clock_reads w))).
Proof.
  intros Hstate Hchosen Htruthy Hcontent Hlast Hfits Hroom w'. subst w'.
  assert (Hphoto : photo m = sizes) by (unfold photo; by rewrite Hcontent).
  assert (Hdoc : document m = None) by (unfold document; by rewrite Hcontent).
  assert (Hatt : attachment env m (clock env (clock_reads w))
                 = Some (photo_file_id file,
                         Some ("photo_" +:+ pretty (id (from_user m)) +:+ "_"
                               +:+ pretty (int_timestamp env (clock env (clock_reads w)))
                               +:+ ".jpg"))).
  { unfold attachment. by rewrite Hdoc, Hphoto, Hlast. }
  rewrite (process_attachment env m w Hstate (attachment_present _ _ _ _ Hatt)).
  destruct (receive_document_effect env m w d _ _ Hchosen Htruthy Hatt Hfits Hroom)
    as (bk & r & w' & -> & Hdb & _ & _ & _ & _ & _ & Hfid & Hfn & Hcreated & _).
  exists bk. cbn [fst snd].
  destruct (db_update_state (chat_id m, id (from_user m)) r w') as (-> & _).
  rewrite Hdb. auto.
Qed.

Lemma photo_upload_uses_last_size_witness :
  ∃ bk : Booking,
    rows (db (process_update (Sample.env true true)
                (MessageUpdate {| from_user := Sample.user 7; chat_id := 7;
                                  content := PhotoContent [ {| photo_file_id := "SMALL" |};
                                                            {| photo_file_id := "LARGE" |} ] |})
                (Sample.world 7 empty_db (Some ASK_DOC) (Some "2024-01-10"))))
    = [bk]
    ∧ b_doc_file_id bk = "LARGE"
    ∧ b_doc_file_name bk = Some "photo_7_1704103200.jpg".
Proof.
  destruct (photo_upload_uses_last_size (Sample.env true true)
              {| from_user := Sample.user 7; chat_id := 7;
                 content := PhotoContent [ {| photo_file_id := "SMALL" |};
                                           {| photo_file_id := "LARGE" |} ] |}
              (Sample.world 7 empty_db (Some ASK_DOC) (Some "2024-01-10"))
              "2024-01-10" _ {| photo_file_id := "LARGE" |}
              eq_refl eq_refl eq_refl eq_refl eq_refl eq_refl)
    as (bk & Hrows & Hfid & Hname & _).
  - vm_compute. discriminate.
  - exists bk. split; [exact Hrows|]. split; [exact Hfid|].
    rewrite Hname. vm_compute. reflexivity.
Defined.

(** Counting after one more row. *)
Lemma sql_count_user_date_snoc (user_id : Z) (date_str : string) (bs : list Booking)
    (bk : Booking) (seq : Z) (d : DB) :
  rows d = bs →
  sql_count_user_date user_id date_str {| rows := bs ++ [bk]; sqlite_sequence := seq |}
  = sql_count_user_date user_id date_str d
    + (if decide (b_user_id bk = user_id ∧ b_date bk = date_str) then 1 else 0).
Proof.
  intros <-. unfold sql_count_user_date. cbn [rows].
  rewrite filter_app, length_app, Nat2Z.inj_add. f_equal.
  rewrite filter_cons, filter_nil. by destruct (decide _).
Qed.

Lemma sql_count_approved_snoc (date_str : string) (bs : list Booking)
    (bk : Booking) (seq : Z) (d : DB) :
  rows d = bs →
  b_status bk = "PENDING" →
  sql_count_approved date_str {| rows := bs ++ [bk]; sqlite_sequence := seq |}
  = sql_count_approved date_str d.
Proof.
  intros <- Hst. unfold sql_count_approved. cbn [rows].
  rewrite filter_app, length_app, filter_cons, filter_nil.
  destruct (decide _) as [[_ Happ]|_]; [by rewrite Hst in Happ|].
  cbn [length]. lia.
Qed.

(** X9.  The upload step checks nothing again: in [ASK_DOC] with a date [d]
    in the session, every document or photo whose row can be inserted adds
    one booking of the user for [d] -- also when the user already has
    bookings for [d], when [d] has ten approved bookings or more, and
    whatever the sends to the administrator and the reply to the user do.
    The count of approved bookings of no date changes. *)
Theorem upload_adds_booking_unchecked (env : Env) (m : Message) (w : World) (d : string) :
  conversation_state w (chat_id m) (id (from_user m)) = Some ASK_DOC →
  chosen_date w (id (from_user m)) = Some d →
  truthy d = true →
  is_Some (document m) ∨ photo m ≠ [] →
  fits_int64 (id (from_user m)) = true →
  next_rowid (db w) ≤ INT64_MAX →
  let w' := process_update env (MessageUpdate m) w in
  sql_count_user_date (id (from_user m)) d (db w')
  = sql_count_user_date (id (from_user m)) d (db w) + 1
  ∧ (∀ d', sql_count_approved d' (db w') = sql_count_approved d' (db w))
  ∧ has_booking (db w') (id (from_user m)) d.
Proof.
  intros Hstate Hchosen Htruthy Hatt Hfits Hroom w'. subst w'.
  rewrite (process_attachment env m w Hstate Hatt).
  destruct (attachment_exists env m (clock env (clock_reads w)) Hatt) as [[fid fname] Ha].
  destruct (receive_document_effect env m w d fid fname Hchosen Htruthy Ha Hfits Hroom)
    as (bk & r & w' & -> & Hdb & _ & Hst & Hu & _ & Hdate & _).
  cbn [fst snd].
  destruct (db_update_state (chat_id m, id (from_user m)) r w') as (-> & _).
  rewrite Hdb. unfold db_with.
  assert (Hcount : sql_count_user_date (id (from_user m)) d
                     {| rows := rows (db w) ++ [bk]; sqlite_sequence := next_rowid (db w) |}
                   = sql_count_user_date (id (from_user m)) d (db w) + 1).
  { rewrite (sql_count_user_date_snoc _ _ _ _ _ (db w) eq_refl).
    by rewrite decide_True by done. }
  split; [exact Hcount|].
  split; [intros d'; by apply sql_count_approved_snoc|].
  apply user_has_booking_iff. rewrite Hcount. apply Z.ltb_lt.
  unfold sql_count_user_date. lia.
Qed.

Lemma upload_adds_booking_unchecked_witness :
  sql_count_user_date 7 "2024-01-10"
    (db (process_update Sample.env_transport_down (MessageUpdate (Sample.document_message 7))
           (Sample.world 7 Sample.full_day (Some ASK_DOC) (Some "2024-01-10"))))
  = sql_count_user_date 7 "2024-01-10" Sample.full_day + 1.
Proof.
  refine (proj1 (upload_adds_booking_unchecked Sample.env_transport_down
                   (Sample.document_message 7)
                   (Sample.world 7 Sample.full_day (Some ASK_DOC) (Some "2024-01-10"))
                   "2024-01-10" _ _ _ _ _ _)).
  - reflexivity.
  - reflexivity.
  - reflexivity.
  - left. by eexists.
  - reflexivity.
  - vm_compute. discriminate.
Defined.

(** X10.  In [ASK_DOC] without a usable date in the session -- none stored,
    or the empty string -- a document or photo is answered with the
    date-missing text and ends the conversation; no row is written and
    nothing is sent to the administrator. *)
Theorem upload_without_date_aborts (env : Env) (m : Message) (w : World) :
  conversation_state w (chat_id m) (id (from_user m)) = Some ASK_DOC →
  chosen_date w (id (from_user m)) = None
  ∨ chosen_date w (id (from_user m)) = Some EmptyString →
  is_Some (document m) ∨ photo m ≠ [] →
  process_update env (MessageUpdate m) w
  = set_conversations (delete (chat_id m, id (from_user m)) (conversations w))
      (add_event (Sent (ReplyText (chat_id m) date_missing_text None)) w).
Proof.
  intros Hstate Hchosen Hatt.
  rewrite (process_attachment env m w Hstate Hatt).
  unfold receive_document. run_monad. unfold chosen_date in Hchosen.
  destruct Hchosen as [-> | ->]; cbn [truthy]; run_monad;
    cbn [fst snd update_state]; by rewrite bool_decide_eq_true_2 by done.
Qed.

Lemma upload_without_date_aborts_witness :
  process_update (Sample.env true true) (MessageUpdate (Sample.document_message 7))
    (Sample.world 7 empty_db (Some ASK_DOC) None)
  = set_conversations (delete (7, 7) (conversations (Sample.world 7 empty_db (Some ASK_DOC) None)))
      (add_event (Sent (ReplyText 7 date_missing_text None))
         (Sample.world 7 empty_db (Some ASK_DOC) None)).
Proof.
  apply (upload_without_date_aborts (Sample.env true true) (Sample.document_message 7)
           (Sample.world 7 empty_db (Some ASK_DOC) None)).
  - reflexivity.
  - left. reflexivity.
  - left. by eexists.
Defined.

(** ** The keyboard and its tokens *)

Lemma colon_free_app (s1 s2 : string) :
  colon_free (s1 +:+ s2) = colon_free s1 && colon_free s2.
Proof.
  unfold String.app. induction s1 as [|a s1 IH]; simpl; [done|].
  rewrite IH. by rewrite andb_assoc.
Qed.

Lemma colon_free_pretty_N_go (x : N) (s : string) :
  colon_free s = true → colon_free (pretty_N_go x s) = true.
Proof.
  revert s. induction (N.lt_wf_0 x) as [x _ IH]; intros s Hs.
  destruct (decide (0 < x)%N) as [Hx|Hx].
  - rewrite pretty_N_go_step by done.
    apply IH; [by apply N.div_lt|].
    simpl. rewrite Hs, andb_true_r.
    unfold pretty_N_char. by repeat case_match.
  - assert (x = 0%N) as -> by lia. by rewrite pretty_N_go_0.
Qed.

Lemma colon_free_pretty_Z (n : Z) : colon_free (pretty n) = true.
Proof.
  assert (Hpos : ∀ p : positive, colon_free (pretty p) = true).
  { intros p. unfold pretty, pretty_positive, pretty, pretty_N.
    case_decide; [done|]. by apply colon_free_pretty_N_go. }
  destruct n as [|p|p]; [done|apply Hpos|].
  unfold pretty, pretty_Z. rewrite colon_free_app. by rewrite Hpos.
Qed.

Lemma colon_free_zfill (width : nat) (n : Z) : colon_free (zfill width n) = true.
Proof.
  unfold zfill. rewrite colon_free_app, colon_free_pretty_Z, andb_true_r.
  induction (width - String.length (pretty n))%nat as [|k IH]; [done|].
  cbn [replicate String.concat].
  destruct (replicate k "0") eqn:Hk.
  - done.
  - by rewrite !colon_free_app, IH.
Qed.

Lemma colon_free_isoformat (d : date) : colon_free (isoformat d) = true.
Proof.
  unfold isoformat. destruct (ord2ymd d) as [[y mo] dd].
  rewrite !colon_free_app, !colon_free_zfill. done.
Qed.

(** Every row the loop adds is the button of a date. *)
Lemma buttons_loop_rows (today min_allowed : date) (pending : list Z)
    (buttons markup : InlineKeyboardMarkup) :
  buttons_loop today min_allowed pending buttons = Ok markup →
  Forall (λ row, ∃ d, row = date_button d) buttons →
  Forall (λ row, ∃ d, row = date_button d) markup.
Proof.
  revert buttons. induction pending as [|i pending IH]; intros buttons; simpl.
  - by intros [= <-].
  - destruct (date_add today i) as [d|e]; [|done].
    destruct ((d <? min_allowed) || negb (is_allowed_weekday d)); [apply IH|].
    intros Hloop Hacc. apply (IH _ Hloop).
    apply Forall_app. split; [done|]. repeat constructor. by exists d.
Qed.

Lemma generate_rows (env : Env) (w w' : World) (markup : InlineKeyboardMarkup) :
  generate_next_two_weeks_buttons env w = (Ok markup, w') →
  Forall (λ row, ∃ d, row = date_button d) markup.
Proof.
  unfold generate_next_two_weeks_buttons, mbind, M_bind, utcnow, lift.
  cbv beta iota zeta.
  destruct (date_add _ 2) as [min_allowed|e]; [|done].
  destruct (buttons_loop _ _ _ _) as [rows|e] eqn:Hloop; [|done].
  intros [= <- _]. by apply (buttons_loop_rows _ _ _ _ _ Hloop).
Qed.

(** X11.  Every button of a keyboard that [generate_next_two_weeks_buttons]
    returns carries callback data that the date handler's pattern accepts
    and from which [split(':')[1]] reads back exactly the text on the
    button, the ISO form of a date. *)
Theorem offered_button_round_trip (env : Env) (w w' : World)
    (markup : InlineKeyboardMarkup) (row : list InlineKeyboardButton)
    (b : InlineKeyboardButton) :
  generate_next_two_weeks_buttons env w = (Ok markup, w') →
  row ∈ markup → b ∈ row →
  matches_date_pattern (callback_data b) = true
  ∧ token_date (callback_data b) = Some (button_text b)
  ∧ ∃ d : date, button_text b = isoformat d.
Proof.
  intros Hgen Hrow Hb.
  pose proof (generate_rows env w w' markup Hgen) as Hrows.
  rewrite Forall_forall in Hrows. destruct (Hrows row Hrow) as [d ->].
  apply list_elem_of_singleton in Hb as ->. cbn [callback_data button_text].
  split; [apply matches_date_pattern_prefixed|].
  split; [|by exists d].
  rewrite token_date_prefixed. f_equal.
  apply before_colon_id, colon_free_isoformat.
Qed.

Lemma offered_button_round_trip_witness :
  token_date "date:2024-01-03" = Some "2024-01-03".
Proof.
  refine (proj1 (proj2 (offered_button_round_trip (Sample.env true true)
                          (Sample.world 7 empty_db None None)
                          (tick (Sample.world 7 empty_db None None))
                          _ _ {| button_text := "2024-01-03";
                                 callback_data := "date:2024-01-03" |} _ _ _))).
  - vm_compute. reflexivity.
  - left.
  - left.
Defined.

Lemma filter_fmap_list {A B} (f : A → B) (P : B → Prop) `{∀ x, Decision (P x)}
    (l : list A) :
  filter P (f <$> l) = f <$> filter (λ x, P (f x)) l.
Proof.
  induction l as [|x l IH]; [done|].
  rewrite fmap_cons, !filter_cons, IH. by destruct (decide (P (f x))).
Qed.

Lemma weekday_add_mod (today i : Z) : weekday (today + i) = weekday (today mod 7 + i).
Proof.
  unfold weekday.
  replace (today + i + 6) with (today + (i + 6)) by lia.
  replace (today mod 7 + i + 6) with (today mod 7 + (i + 6)) by lia.
  by rewrite Zplus_mod_idemp_l.
Qed.

(** The offered dates, counted from [today], depend on [today]'s place in
    the week only. *)
Lemma offered_dates_by_weekday (today : date) :
  filter (offerable today) (seqZ today 14)
  = Z.add today <$> filter (λ i, offerable 0 (today mod 7 + i) ∧ 2 ≤ i) (seqZ 0 14).
Proof.
  assert (Hseq : seqZ today 14 = Z.add today <$> seqZ 0 14)
    by (by rewrite fmap_add_seqZ, Z.add_0_r).
  rewrite Hseq, filter_fmap_list.
  f_equal. apply list_filter_iff. intros i.
  unfold offerable, is_allowed_weekday.
  rewrite (weekday_add_mod today i).
  pose proof (Z.mod_pos_bound today 7 ltac:(lia)) as Hr.
  split.
  - intros [Hlead Hday]. repeat split; [lia|done|lia].
  - intros [[_ Hday] Hlead]. split; [lia|done].
Qed.

Lemma offered_dates_count (today : date) :
  (8 ≤ length (filter (offerable today) (seqZ today 14)) ≤ 10)%nat.
Proof.
  rewrite offered_dates_by_weekday, length_fmap.
  pose proof (Z.mod_pos_bound today 7 ltac:(lia)) as Hr.
  assert (Hcases : today mod 7 ∈ seqZ 0 7) by (apply elem_of_seqZ; lia).
  revert Hcases. generalize (today mod 7). clear Hr. intros r Hcases.
  change (seqZ 0 7) with [0; 1; 2; 3; 4; 5; 6] in Hcases.
  repeat (apply elem_of_cons in Hcases as [->|Hcases]; [vm_compute; lia|]).
  by apply elem_of_nil in Hcases.
Qed.

(** X12.  The keyboard is never empty: whenever it can be built it has 8,
    9 or 10 rows, each of one button. *)
Theorem keyboard_has_8_to_10_rows (env : Env) (w : World) :
  horizon_in_range (dt_date (clock env (clock_reads w))) →
  ∃ markup,
    generate_next_two_weeks_buttons env w = (Ok markup, tick w)
    ∧ (8 ≤ length markup ≤ 10)%nat
    ∧ Forall (λ row, length row = 1%nat) markup.
Proof.
  intros Hr. eexists. split; [by apply generate_spec|].
  rewrite length_fmap. split; [apply offered_dates_count|].
  apply Forall_fmap, Forall_forall. done.
Qed.

Lemma keyboard_has_8_to_10_rows_witness :
  ∃ markup,
    generate_next_two_weeks_buttons (Sample.env true true) (Sample.world 7 empty_db None None)
    = (Ok markup, tick (Sample.world 7 empty_db None None))
    ∧ (8 ≤ length markup ≤ 10)%nat.
Proof.
  assert (Hr : horizon_in_range (ymd2ord 2024 1 1)) by (vm_compute; split; discriminate).
  destruct (keyboard_has_8_to_10_rows (Sample.env true true)
              (Sample.world 7 empty_db None None) Hr) as (markup & Hgen & Hlen & _).
  exists markup. auto.
Defined.

(** ** What any update can do to the world *)

Lemma check_update_handled (env : Env) (h : Handler) (u : Update) (run : M (option Z)) :
  registered h → check_update env h u = Some run → handled_by env u run.
Proof.
  destruct h as [c cb|f cb|pat cb], u as [m|q]; cbn [registered check_update]; try done.
  - intros Hcb. case_bool_decide; [|done]. intros [= <-].
    destruct Hcb as [->|[->|[->|[->| ->]]]]; constructor.
  - intros Hcb. destruct (f m); [|done]. intros [= <-].
    destruct Hcb as [->|[->|[->|[->| ->]]]]; constructor.
  - intros ->. destruct (cq_data q) as [data|]; [|done].
    destruct (pat data); [|done]. intros [= <-]. constructor.
Qed.

Lemma first_match_handled (env : Env) (hs : list Handler) (u : Update) (run : M (option Z)) :
  Forall registered hs → first_match env hs u = Some run → handled_by env u run.
Proof.
  induction 1 as [|h hs Hh _ IH]; cbn [first_match]; [done|].
  destruct (check_update env h u) as [run'|] eqn:Hcheck; [|done].
  intros [= <-]. by apply (check_update_handled env h).
Qed.

Lemma conv_handler_registered (state : Z) :
  Forall registered (entry_points conv_handler)
  ∧ Forall registered (default [] (states conv_handler !! state))
  ∧ Forall registered (fallbacks conv_handler).
Proof.
  assert (Hall : ∀ hs, Forall registered hs ↔ foldr (λ h P, registered h ∧ P) True hs).
  { induction hs as [|h hs IH]; [done|]. by rewrite Forall_cons, IH. }
  split; [|split].
  - apply Hall. cbn. unfold is_message_callback. auto 10.
  - destruct (decide (state = ASK_DATE)) as [->|Hdate].
    { rewrite conv_states_ASK_DATE. apply Hall. cbn. unfold is_message_callback. auto 10. }
    destruct (decide (state = ASK_DOC)) as [->|Hdoc].
    { rewrite conv_states_ASK_DOC. apply Hall. cbn. unfold is_message_callback. auto 10. }
    rewrite conv_states_other by done. constructor.
  - apply Hall. cbn. unfold is_message_callback. auto 10.
Qed.

Lemma conversation_check_handled (env : Env) (u : Update) (w : World) (run : M (option Z)) :
  conversation_check env conv_handler u w = Some run → handled_by env u run.
Proof.
  unfold conversation_check.
  destruct (conversations w !! conversation_key u) as [state|].
  - destruct (conv_handler_registered state) as (_ & Hstate & Hfall).
    destruct (first_match env (default [] _) u) as [run'|] eqn:Hfm.
    + intros [= <-]. by apply (first_match_handled env _ u run' Hstate).
    + by apply first_match_handled.
  - destruct (conv_handler_registered 0) as (Hentry & _).
    by apply first_match_handled.
Qed.

(** An update is dropped, or handed to one callback whose result then
    moves the conversation. *)
Lemma process_update_dispatch (env : Env) (u : Update) (w : World) :
  process_update env u w = w
  ∨ ∃ run, handled_by env u run
           ∧ process_update env u w
             = update_state (conversation_key u) (run w).1 (run w).2.
Proof.
  unfold process_update.
  destruct (check_update env (CommandHandler "start" start) u) as [run|] eqn:Hstart.
  { right. exists run. split.
    - apply (check_update_handled env _ u run) in Hstart; [done|].
      cbn. unfold is_message_callback. auto 10.
    - destruct u as [m|q]; [|done]. cbn [check_update] in Hstart.
      case_bool_decide; [|done]. by injection Hstart as <-. }
  destruct (conversation_check env conv_handler u w) as [run|] eqn:Hconv.
  { right. exists run. split; [by apply (conversation_check_handled env u w)|].
    by destruct (run w). }
  destruct (check_update env (MessageHandler filters.COMMAND unknown) u) as [run|] eqn:Hunk;
    [|by left].
  right. exists run. split.
  - apply (check_update_handled env _ u run) in Hunk; [done|].
    cbn. unfold is_message_callback. auto 10.
  - destruct u as [m|q]; [|done]. cbn [check_update] in Hunk.
    destruct (filters.COMMAND m); [|done]. by injection Hunk as <-.
Qed.

(** Closes the goals that say a branch of a callback leaves table,
    sessions and conversations alone and only adds to the trace. *)
Ltac effect_done :=
  cbn; unfold ASK_DATE, ASK_DOC, END; repeat split; auto;
  first [ by eexists
        | by (exists []; rewrite app_nil_r)
        | by (eexists; rewrite <- app_assoc) ].

(** What a callback can do: return one of the known states, [END] or
    nothing, or raise; leave the table alone or insert one PENDING row;
    touch no session but that of the update's user, and no conversation
    state; add to the trace. *)
Lemma callback_effect (env : Env) (u : Update) (run : M (option Z)) (w : World) :
  handled_by env u run →
  callback_result_ok (run w).1
  ∧ (db (run w).2 = db w ∨ db_insert_pending (db w) (db (run w).2))
  ∧ (∀ user_id, user_id ≠ update_user_id u →
       user_data (run w).2 !! user_id = user_data w !! user_id)
  ∧ conversations (run w).2 = conversations w
  ∧ ∃ evs, trace (run w).2 = (trace w ++ evs)%list.
Proof.
  destruct 1 as [m|m|q|m|m|m].
  - unfold start. run_monad. effect_done.
  - unfold schedule_start, generate_next_two_weeks_buttons, utcnow. run_monad.
    cbv zeta.
    destruct (date_add _ 2) as [min_allowed|e]; [|effect_done].
    destruct (buttons_loop _ _ _ _) as [rows|e]; effect_done.
  - unfold receive_date_button. run_monad.
    destruct (cq_data q) as [data|]; [|effect_done].
    cbv beta iota.
    destruct (token_date data) as [d|]; [|effect_done].
    cbv beta iota zeta. cbn [db add_event].
    destruct (0 <? _); [effect_done|].
    destruct (10 <=? _); [effect_done|].
    cbn. unfold ASK_DATE, ASK_DOC, END. repeat split; auto.
    + intros user_id Hother. unfold update_user_id in Hother. cbn in Hother.
      by rewrite lookup_insert_ne.
    + eexists. by rewrite <- app_assoc.
  - unfold receive_document. run_monad.
    destruct (user_data w !! id (from_user m) ≫= _) as [d|]; [|effect_done].
    destruct (truthy d); [|effect_done].
    assert (Hsubmit : ∀ fid fname w0,
              db w0 = db w → user_data w0 = user_data w →
              conversations w0 = conversations w → trace w0 = trace w →
              let r := submit_booking env m d fid fname w0 in
              callback_result_ok r.1
              ∧ (db r.2 = db w ∨ db_insert_pending (db w) (db r.2))
              ∧ (∀ user_id, user_id ≠ update_user_id (MessageUpdate m) →
                   user_data r.2 !! user_id = user_data w !! user_id)
              ∧ conversations r.2 = conversations w
              ∧ ∃ evs, trace r.2 = (trace w ++ evs)%list).
    { intros fid fname w0 Hdb Hud Hconv Htrace r. subst r.
      destruct (submit_booking_effect env m d fid fname w0)
        as (r & w' & -> & Hres & Hdb' & Hud' & Hconv' & [evs Hevs]).
      cbn [fst snd]. split; [done|].
      split.
      { destruct Hdb' as [-> | ->]; [by left|right].
        exists (submitted_row env m d fid fname w0).
        unfold db_with, submitted_row at 1 2. cbn [b_status b_id]. by rewrite Hdb. }
      split; [intros; by rewrite Hud', Hud|].
      split; [by rewrite Hconv', Hconv|].
      exists evs. by rewrite Hevs, Htrace. }
    destruct (document m) as [doc|]; [by apply Hsubmit|].
    destruct (last (photo m)) as [file|]; [|effect_done].
    unfold utcnow. cbv beta iota zeta. by apply Hsubmit.
  - unfold cancel. run_monad. effect_done.
  - unfold unknown. run_monad. effect_done.
Qed.

(** The same for a whole update. *)
Lemma process_update_effect (env : Env) (u : Update) (w : World) :
  let w' := process_update env u w in
  (db w' = db w ∨ db_insert_pending (db w) (db w'))
  ∧ (∀ user_id, user_id ≠ update_user_id u →
       user_data w' !! user_id = user_data w !! user_id)
  ∧ (∀ key, key ≠ conversation_key u →
       conversations w' !! key = conversations w !! key)
  ∧ (conversations w' !! conversation_key u = conversations w !! conversation_key u
     ∨ known_state (conversations w' !! conversation_key u))
  ∧ ∃ evs, trace w' = (trace w ++ evs)%list.
Proof.
  intros w'. subst w'.
  destruct (process_update_dispatch env u w) as [->|(run & Hrun & ->)].
  { repeat split; auto. by exists []; rewrite app_nil_r. }
  destruct (callback_effect env u run w Hrun) as (Hres & Hdb & Hud & Hconv & Htrace).
  destruct (run w) as [r w1]. cbn [fst snd] in *.
  unfold update_state, known_state.
  destruct r as [[state|]|e]; [|by rewrite Hconv; auto 10..].
  case_bool_decide as Hend.
  - cbn. rewrite Hconv, lookup_delete_eq.
    repeat split; auto. intros key Hkey. by rewrite lookup_delete_ne.
  - cbn. rewrite Hconv, lookup_insert_eq.
    repeat split; auto.
    + intros key Hkey. by rewrite lookup_insert_ne.
    + right. cbn in Hres. destruct Hres as [->|[->|Hres]]; auto. done.
Qed.

(** ** Invariants of the table, the sessions and the conversations *)

(** X13.  Whatever the update, the table after it is the table before it,
    or has exactly one more row at the end: a PENDING row under the next
    id, which is above every id in the table.  No update deletes a row,
    changes one, or writes a status other than PENDING. *)
Theorem update_appends_at_most_one_pending_row (env : Env) (u : Update) (w : World) :
  let w' := process_update env u w in
  db w' = db w
  ∨ ∃ bk : Booking,
      rows (db w') = (rows (db w) ++ [bk])%list
      ∧ b_status bk = "PENDING"
      ∧ b_id bk = next_rowid (db w)
      ∧ ∀ r, r ∈ rows (db w) → b_id r < b_id bk.
Proof.
  intros w'. subst w'.
  destruct (process_update_effect env u w) as ([Hsame|(bk & Hst & Hid & Hdb)] & _);
    [by left|right].
  exists bk. rewrite Hdb. cbn [rows]. repeat split; try done.
  intros r Hr. rewrite Hid. by apply next_rowid_fresh.
Qed.

(** X14.  No sequence of updates changes the number of approved bookings
    of any date: what the capacity check counts is written only outside
    this program. *)
Theorem approved_count_never_changes (events : list (Env * Update)) (w : World)
    (date_str : string) :
  sql_count_approved date_str (db (run_polling events w))
  = sql_count_approved date_str (db w).
Proof.
  revert w. induction events as [|[env u] events IH]; intros w; [done|].
  unfold run_polling in *. cbn [foldl fst snd]. rewrite IH.
  destruct (process_update_effect env u w) as ([->|(bk & Hst & _ & ->)] & _); [done|].
  by apply sql_count_approved_snoc.
Qed.

Lemma db_insert_pending_NoDup (d d' : DB) :
  db_insert_pending d d' → NoDup (b_id <$> rows d) → NoDup (b_id <$> rows d').
Proof.
  intros (bk & _ & Hid & ->) Hnd. cbn [rows].
  rewrite fmap_app. apply NoDup_app. split; [done|].
  split; [|apply NoDup_singleton].
  intros x Hx Hx'. apply list_elem_of_singleton in Hx' as ->.
  apply list_elem_of_fmap in Hx as (r & Heq & Hr).
  apply next_rowid_fresh in Hr. lia.
Qed.

(** X15.  Booking ids stay distinct: if no two rows of the table share an
    id, no sequence of updates makes two rows share one. *)
Theorem booking_ids_stay_distinct (events : list (Env * Update)) (w : World) :
  NoDup (b_id <$> rows (db w)) →
  NoDup (b_id <$> rows (db (run_polling events w))).
Proof.
  revert w. induction events as [|[env u] events IH]; intros w Hnd; [done|].
  unfold run_polling in *. cbn [foldl fst snd]. apply IH.
  destruct (process_update_effect env u w) as ([->|Hins] & _); [done|].
  by apply (db_insert_pending_NoDup (db w)).
Qed.

Lemma booking_ids_stay_distinct_witness :
  NoDup (b_id <$> rows (db (run_polling
           [(Sample.env true true, MessageUpdate (Sample.document_message 7));
            (Sample.env true true, MessageUpdate (Sample.command 7 "schedule"))]
           (Sample.world 7 Sample.full_day (Some ASK_DOC) (Some "2024-01-10"))))).
Proof.
  apply (booking_ids_stay_distinct _
           (Sample.world 7 Sample.full_day (Some ASK_DOC) (Some "2024-01-10"))).
  apply (bool_decide_unpack _). vm_compute. exact I.
Defined.

(** X16.  An update touches the session of its own user and the
    conversation of its own (chat, user) pair only: the session data of
    every other user and the state of every other conversation are after
    the update what they were before. *)
Theorem update_leaves_other_users_alone (env : Env) (u : Update) (w : World)
    (user_id : Z) (key : Z * Z) :
  user_id ≠ update_user_id u →
  key ≠ conversation_key u →
  let w' := process_update env u w in
  user_data w' !! user_id = user_data w !! user_id
  ∧ chosen_date w' user_id = chosen_date w user_id
  ∧ conversations w' !! key = conversations w !! key.
Proof.
  intros Huser Hkey w'. subst w'.
  destruct (process_update_effect env u w) as (_ & Hud & Hconv & _).
  unfold chosen_date. rewrite (Hud user_id Huser). auto.
Qed.

Lemma update_leaves_other_users_alone_witness :
  chosen_date
    (process_update (Sample.env true true)
       (CallbackQueryUpdate (Sample.select 8 "date:2024-01-11"))
       (set_conversations {[ (7, 7) := ASK_DOC; (8, 8) := ASK_DATE ]}
          (Sample.world 7 empty_db None (Some "2024-01-10")))) 7
  = Some "2024-01-10"
  ∧ conversation_state
      (process_update (Sample.env true true)
         (CallbackQueryUpdate (Sample.select 8 "date:2024-01-11"))
         (set_conversations {[ (7, 7) := ASK_DOC; (8, 8) := ASK_DATE ]}
            (Sample.world 7 empty_db None (Some "2024-01-10")))) 7 7
    = Some ASK_DOC.
Proof.
  destruct (update_leaves_other_users_alone (Sample.env true true)
              (CallbackQueryUpdate (Sample.select 8 "date:2024-01-11"))
              (set_conversations {[ (7, 7) := ASK_DOC; (8, 8) := ASK_DATE ]}
                 (Sample.world 7 empty_db None (Some "2024-01-10")))
              7 (7, 7))
    as (_ & Hchosen & Hconv).
  - vm_compute. discriminate.
  - vm_compute. discriminate.
  - split.
    + exact (eq_trans Hchosen eq_refl).
    + exact (eq_trans Hconv eq_refl).
Defined.

(** X17.  Under [main], whatever updates arrive, a conversation is in
    [ASK_DATE] or in [ASK_DOC] or there is none: no handler ever returns
    another state, and [ASK_FILE_COUNT], though declared, is never
    entered. *)
Theorem conversation_states_are_known (file : option DB) (events : list (Env * Update))
    (key : Z * Z) :
  known_state (conversations (main file events) !! key)
  ∧ conversations (main file events) !! key ≠ Some ASK_FILE_COUNT.
Proof.
  assert (Hinv : ∀ events w, (∀ k, known_state (conversations w !! k)) →
                 ∀ k, known_state (conversations (run_polling events w) !! k)).
  { clear. induction events as [|[env u] events IH]; intros w Hw k; [apply Hw|].
    unfold run_polling in *. cbn [foldl fst snd]. apply IH. clear k. intros k.
    destruct (process_update_effect env u w) as (_ & _ & Hother & Hown & _).
    destruct (decide (k = conversation_key u)) as [->|Hk].
    - destruct Hown as [-> | Hknown]; [apply Hw|done].
    - rewrite (Hother k Hk). apply Hw. }
  assert (Hknown : known_state (conversations (main file events) !! key)).
  { apply Hinv. intros k. left. apply lookup_empty. }
  split; [done|].
  destruct Hknown as [-> | [-> | ->]]; discriminate.
Qed.

Lemma max_rowid_le (bs : list Booking) (n : Z) :
  0 ≤ n → (∀ b, b ∈ bs → b_id b ≤ n) → max_rowid bs ≤ n.
Proof.
  intros Hn. unfold max_rowid. induction bs as [|b bs IH]; intros Hall; [done|].
  rewrite fmap_cons. cbn [foldr].
  assert (b_id b ≤ n) by (apply Hall; left).
  assert (foldr Z.max 0 (b_id <$> bs) ≤ n) by (apply IH; intros; apply Hall; by right).
  lia.
Qed.

(** X18.  Started on a fresh database file, [main] keeps the table in this
    shape whatever updates arrive: the ids are 1, 2, ..., in the order of
    insertion, every row is PENDING, and so no date has an approved
    booking. *)
Theorem fresh_table_rows_are_numbered_and_pending (events : list (Env * Update)) :
  let d := db (main None events) in
  b_id <$> rows d = seqZ 1 (Z.of_nat (length (rows d)))
  ∧ Forall (λ b, b_status b = "PENDING") (rows d)
  ∧ ∀ date_str, sql_count_approved date_str d = 0.
Proof.
  set (inv := λ d : DB,
         b_id <$> rows d = seqZ 1 (Z.of_nat (length (rows d)))
         ∧ sqlite_sequence d = Z.of_nat (length (rows d))
         ∧ Forall (λ b, b_status b = "PENDING") (rows d)).
  assert (Hstep : ∀ d d', db_insert_pending d d' → inv d → inv d').
  { intros d d' (bk & Hst & Hid & ->) (Hids & Hseq & Hpend). unfold inv. cbn [rows sqlite_sequence].
    assert (Hnext : next_rowid d = Z.of_nat (length (rows d)) + 1).
    { unfold next_rowid. rewrite Hseq.
      assert (max_rowid (rows d) ≤ Z.of_nat (length (rows d))); [|lia].
      apply max_rowid_le; [lia|]. intros b Hb.
      assert (Hin : b_id b ∈ b_id <$> rows d) by (by apply list_elem_of_fmap_2).
      rewrite Hids in Hin. apply elem_of_seqZ in Hin. lia. }
    rewrite length_app, fmap_app, Hids. cbn [length fmap list_fmap].
    rewrite Nat2Z.inj_add, Hid, Hnext.
    split; [|split].
    - rewrite seqZ_app by lia. f_equal. change (Z.of_nat 1) with 1.
      rewrite seqZ_cons by lia. rewrite seqZ_nil by lia. f_equal. lia.
    - change (Z.of_nat 1) with 1. lia.
    - apply Forall_app. split; [done|]. by constructor. }
  assert (Hinv : ∀ events w, inv (db w) → inv (db (run_polling events w))).
  { clear events. induction events as [|[env u] events IH]; intros w Hw; [done|].
    unfold run_polling in *. cbn [foldl fst snd]. apply IH.
    destruct (process_update_effect env u w) as ([->|Hins] & _); [done|].
    by apply (Hstep (db w)). }
  intros d. subst d.
  assert (Hmain : inv (db (main None events))).
  { apply Hinv. unfold inv. cbn. split; [done|]. split; [done|]. constructor. }
  destruct Hmain as (Hids & _ & Hpend).
  split; [done|]. split; [done|].
  intros date_str. unfold sql_count_approved.
  assert (Hnone : filter (λ b, b_date b = date_str ∧ b_status b = "APPROVED")
                    (rows (db (main None events))) = []).
  { clear Hids. revert Hpend. generalize (rows (db (main None events))).
    induction 1 as [|b bs Hst _ IH]; [done|].
    rewrite filter_cons, IH.
    destruct (decide _) as [[_ Happ]|_]; [by rewrite Hst in Happ|done]. }
  by rewrite Hnone.
Qed.

(** ** Capacity counts approved bookings only *)

Lemma sql_count_approved_zero (date_str : string) (d : DB) :
  (∀ b, b ∈ rows d → b_date b = date_str → b_status b ≠ "APPROVED") →
  sql_count_approved date_str d = 0.
Proof.
  intros Hnone. unfold sql_count_approved.
  destruct (filter _ (rows d)) as [|b bs] eqn:Hf; [done|].
  assert (Hin : b ∈ filter (λ b, b_date b = date_str ∧ b_status b = "APPROVED") (rows d))
    by (rewrite Hf; left).
  apply list_elem_of_filter in Hin as [[Hd Hs] Hin]. by destruct (Hnone b Hin Hd).
Qed.

(** X19.  Bookings that are not approved take up no capacity: in
    [ASK_DATE], a date for which the table holds PENDING or REJECTED rows
    only -- however many -- is accepted from a user who has no booking of
    their own for it. *)
Theorem unapproved_bookings_take_no_capacity (env : Env) (q : CallbackQuery) (w : World)
    (data d : string) :
  conversation_state w (cq_chat_id q) (id (cq_from_user q)) = Some ASK_DATE →
  cq_data q = Some data →
  matches_date_pattern data = true →
  token_date data = Some d →
  ¬ has_booking (db w) (id (cq_from_user q)) d →
  (∀ b, b ∈ rows (db w) → b_date b = d → b_status b ≠ "APPROVED") →
  selection_accepted d q w (process_update env (CallbackQueryUpdate q) w).
Proof.
  intros Hstate Hdata Hpat Htoken Hnone Hunapproved.
  apply (selection_accepted_intro env q w data); try done.
  rewrite (sql_count_approved_zero d (db w) Hunapproved). lia.
Qed.

Lemma unapproved_bookings_take_no_capacity_witness :
  selection_accepted "2024-01-10" (Sample.select 77 "date:2024-01-10")
    (Sample.world 77
       {| rows := (λ n, Sample.booking n n "2024-01-10" "PENDING") <$> seqZ 1 12;
          sqlite_sequence := 12 |}
       (Some ASK_DATE) None)
    (process_update (Sample.env true true)
       (CallbackQueryUpdate (Sample.select 77 "date:2024-01-10"))
       (Sample.world 77
          {| rows := (λ n, Sample.booking n n "2024-01-10" "PENDING") <$> seqZ 1 12;
             sqlite_sequence := 12 |}
          (Some ASK_DATE) None)).
Proof.
  apply (unapproved_bookings_take_no_capacity (Sample.env true true)
           (Sample.select 77 "date:2024-01-10") _ "date:2024-01-10" "2024-01-10").
  - reflexivity.
  - reflexivity.
  - reflexivity.
  - reflexivity.
  - intros Hb%user_has_booking_iff. vm_compute in Hb. discriminate Hb.
  - intros b Hb _. vm_compute in Hb.
    repeat (apply elem_of_cons in Hb as [->|Hb]; [discriminate|]).
    by apply elem_of_nil in Hb.
Defined.

(** ** [add_booking] and the two queries *)

(** X20.  [add_booking] for one user and date changes the answer of
    [user_has_booking_on_date] for that pair only, and the answer of
    [count_bookings_for_date] for no date. *)
Theorem add_booking_changes_one_answer (env : Env) (w : World)
    (user_id : Z) (username date_str doc_file_id : string) (doc_file_name : option string)
    (other_user : Z) (other_date : string) :
  (other_user, other_date) ≠ (user_id, date_str) →
  let w' := (add_booking env user_id username date_str doc_file_id doc_file_name w).2 in
  (user_has_booking_on_date other_user other_date w').1
  = (user_has_booking_on_date other_user other_date w).1
  ∧ ∀ d, (count_bookings_for_date d w').1 = (count_bookings_for_date d w).1.
Proof.
  intros Hother w'. subst w'.
  rewrite add_booking_run.
  destruct (fits_int64 user_id); [|done].
  destruct (next_rowid (db w) <=? INT64_MAX); [|done].
  unfold user_has_booking_on_date, count_bookings_for_date.
  cbn [fst snd db set_db tick]. split.
  - f_equal. f_equal.
    rewrite (sql_count_user_date_snoc _ _ _ _ _ (db w) eq_refl). cbn [b_user_id b_date].
    rewrite decide_False; [lia|]. intros [-> ->]. done.
  - intros d. f_equal. by apply sql_count_approved_snoc.
Qed.

Lemma add_booking_changes_one_answer_witness :
  (user_has_booking_on_date 7 "2024-01-11"
     (add_booking (Sample.env true true) 7 "user" "2024-01-10" "FILE-1" None
        (Sample.world 7 empty_db None None)).2).1
  = Ok false.
Proof.
  refine (eq_trans (proj1 (add_booking_changes_one_answer (Sample.env true true)
                             (Sample.world 7 empty_db None None)
                             7 "user" "2024-01-10" "FILE-1" None 7 "2024-01-11" _)) _).
  - discriminate.
  - reflexivity.
Defined.

(** ** Whole conversations *)

Lemma truthy_app_r (s t : string) : truthy t = true → truthy (s +:+ t) = true.
Proof. unfold String.app. destruct s; [done|]. done. Qed.

Lemma truthy_isoformat (d : date) : truthy (isoformat d) = true.
Proof.
  unfold isoformat. destruct (ord2ymd d) as [[y mo] dd].
  repeat (apply truthy_app_r; try done).
Qed.

Lemma token_date_isoformat (d : date) :
  token_date ("date:" +:+ isoformat d) = Some (isoformat d).
Proof.
  rewrite token_date_prefixed. f_equal. apply before_colon_id, colon_free_isoformat.
Qed.

(** X21.  A whole booking.  With no conversation under way, the user sends
    [/schedule], presses a date button -- callback data ["date:"] and the
    ISO text of a date they have no booking for and which has fewer than
    ten approved bookings -- and uploads a document whose row can be
    inserted; the sends to the administrator go through.  Then the table
    has one more row -- PENDING, for that user, the ISO text of that date
    and that document, under the next id -- the conversation has ended,
    and the trace has grown by exactly: the prompt with the keyboard of the
    dates offerable on the day of the first clock reading, the answer and
    the edit of the selection, the caption and the document for the
    administrator, and the confirmation. *)
Theorem schedule_select_upload_books (env1 env2 env3 : Env) (w : World)
    (user : User) (chat : Z) (text : string) (d : date) (doc : Document) :
  conversation_state w chat (id user) = None →
  horizon_in_range (dt_date (clock env1 (clock_reads w))) →
  ¬ has_booking (db w) (id user) (isoformat d) →
  sql_count_approved (isoformat d) (db w) < 10 →
  fits_int64 (id user) = true →
  next_rowid (db w) ≤ INT64_MAX →
  send_message_ok env3 = true → send_document_ok env3 = true →
  let today := dt_date (clock env1 (clock_reads w)) in
  let w' :=
    run_polling
      [ (env1, MessageUpdate {| from_user := user; chat_id := chat;
                                content := TextContent text (Some "schedule") |});
        (env2, CallbackQueryUpdate {| cq_from_user := user; cq_chat_id := chat;
                                      cq_data := Some ("date:" +:+ isoformat d) |});
        (env3, MessageUpdate {| from_user := user; chat_id := chat;
                                content := DocumentContent doc |}) ] w in
  ∃ (bk : Booking) (markup : InlineKeyboardMarkup),
    generate_next_two_weeks_buttons env1 w = (Ok markup, tick w)
    ∧ markup = date_button <$> filter (offerable today) (seqZ today 14)
    ∧ rows (db w') = (rows (db w) ++ [bk])%list
    ∧ b_id bk = next_rowid (db w) ∧ b_status bk = "PENDING"
    ∧ b_user_id bk = id user ∧ b_date bk = isoformat d
    ∧ b_doc_file_id bk = file_id doc ∧ b_doc_file_name bk = file_name doc
    ∧ conversation_state w' chat (id user) = None
    ∧ trace w'
      = (trace w
         ++ [Sent (ReplyText chat schedule_prompt (Some markup));
             Sent (AnswerCallbackQuery chat);
             Sent (EditMessageText chat (selected_text (isoformat d)))]
         ++ dispatched env3 (next_rowid (db w)) user (isoformat d) (file_id doc) (file_name doc)
         ++ [Sent (ReplyText chat submitted_text None)])%list.
Proof.
  intros Hidle Hr Hnone Hroom Hfits Hceiling Hm Hd today w'. subst w'.
  unfold run_polling. cbn [foldl fst snd].
  set (m1 := {| from_user := user; chat_id := chat;
                content := TextContent text (Some "schedule") |}).
  set (q := {| cq_from_user := user; cq_chat_id := chat;
               cq_data := Some ("date:" +:+ isoformat d) |}).
  set (m3 := {| from_user := user; chat_id := chat; content := DocumentContent doc |}).
  (* /schedule *)
  rewrite (process_schedule_idle env1 m1 w Hidle eq_refl).
  rewrite (schedule_start_run env1 m1 w Hr). fold today.
  cbn [fst snd update_state]. rewrite bool_decide_eq_false_2 by done.
  set (w1 := set_conversations _ _).
  (* the button *)
  assert (Hsel : selection_accepted (isoformat d) q w1
                   (process_update env2 (CallbackQueryUpdate q) w1)).
  { apply (selection_accepted_intro env2 q w1 ("date:" +:+ isoformat d)); try done.
    - unfold conversation_state, w1. cbn. apply lookup_insert_eq.
    - apply matches_date_pattern_prefixed.
    - apply token_date_isoformat. }
  set (w2 := process_update env2 (CallbackQueryUpdate q) w1) in *.
  destruct Hsel as (Htrace2 & Hstate2 & Hchosen2 & Hdb2).
  (* the document *)
  assert (Hatt : attachment env3 m3 (clock env3 (clock_reads w2))
                 = Some (file_id doc, file_name doc)) by done.
  assert (Hceiling2 : next_rowid (db w2) ≤ INT64_MAX) by (by rewrite Hdb2).
  rewrite (process_attachment env3 m3 w2 Hstate2 (attachment_present _ _ _ _ Hatt)).
  destruct (receive_document_effect env3 m3 w2 (isoformat d) (file_id doc) (file_name doc)
              Hchosen2 (truthy_isoformat d) Hatt Hfits Hceiling2)
    as (bk & r & w3 & -> & Hdb3 & Hid & Hst & Hu & _ & Hdate & Hfid & Hfn & _ & _ & _ & Hok).
  destruct (Hok Hm Hd) as [-> Htrace3].
  exists bk, (date_button <$> filter (offerable today) (seqZ today 14)).
  split; [by apply generate_spec|]. split; [done|].
  cbn [fst snd update_state].
  rewrite bool_decide_eq_true_2 by done.
  unfold conversation_state.
  cbn [trace db user_data conversations set_conversations].
  rewrite lookup_delete_eq, Hdb3, Htrace3, Htrace2, Hdb2, Hid, Hdb2.
  unfold w1, db_with. cbn [trace db rows set_conversations add_event tick].
  rewrite <- !app_assoc. done.
Qed.

Lemma schedule_select_upload_books_witness :
  ∃ bk : Booking,
    rows (db (run_polling
                [ (Sample.env true true, MessageUpdate (Sample.command 7 "schedule"));
                  (Sample.env true true,
                   CallbackQueryUpdate (Sample.select 7 ("date:" +:+ isoformat (ymd2ord 2024 1 10))));
                  (Sample.env true true, MessageUpdate (Sample.document_message 7)) ]
                (Sample.world 7 empty_db None None)))
    = [bk]
    ∧ b_status bk = "PENDING" ∧ b_date bk = "2024-01-10".
Proof.
  assert (Hr : horizon_in_range (ymd2ord 2024 1 1)) by (vm_compute; split; discriminate).
  destruct (schedule_select_upload_books (Sample.env true true) (Sample.env true true)
              (Sample.env true true) (Sample.world 7 empty_db None None)
              (Sample.user 7) 7 "/schedule" (ymd2ord 2024 1 10)
              {| file_id := "FILE-1"; file_name := Some "form.pdf" |})
    as (bk & markup & _ & _ & Hrows & _ & Hst & _ & Hdate & _).
  - reflexivity.
  - exact Hr.
  - intros (b & Hb & _). by apply elem_of_nil in Hb.
  - vm_compute. reflexivity.
  - reflexivity.
  - vm_compute. discriminate.
  - reflexivity.
  - reflexivity.
  - exists bk. split; [exact Hrows|]. split; [exact Hst|].
    rewrite Hdate. vm_compute. reflexivity.
Defined.

(** X22.  The empty date.  In [ASK_DATE], the token ["date:"] -- nothing
    after the colon -- is accepted like any other when the checks pass for
    the empty string, and the conversation moves on to [ASK_DOC]; the
    upload that follows is then answered with the date-missing text and
    ends the conversation, and no booking is written. *)
Theorem empty_date_is_accepted_then_upload_aborts (env1 env2 : Env) (w : World)
    (q : CallbackQuery) (m : Message) :
  conversation_state w (cq_chat_id q) (id (cq_from_user q)) = Some ASK_DATE →
  cq_data q = Some "date:" →
  ¬ has_booking (db w) (id (cq_from_user q)) EmptyString →
  sql_count_approved EmptyString (db w) < 10 →
  chat_id m = cq_chat_id q → from_user m = cq_from_user q →
  is_Some (document m) ∨ photo m ≠ [] →
  let w1 := process_update env1 (CallbackQueryUpdate q) w in
  let w2 := process_update env2 (MessageUpdate m) w1 in
  conversation_state w1 (cq_chat_id q) (id (cq_from_user q)) = Some ASK_DOC
  ∧ chosen_date w1 (id (cq_from_user q)) = Some EmptyString
  ∧ conversation_state w2 (cq_chat_id q) (id (cq_from_user q)) = None
  ∧ db w2 = db w
  ∧ trace w2
    = (trace w ++ [Sent (AnswerCallbackQuery (cq_chat_id q));
                   Sent (EditMessageText (cq_chat_id q) (selected_text EmptyString));
                   Sent (ReplyText (cq_chat_id q) date_missing_text None)])%list.
Proof.
  intros Hstate Hdata Hnone Hroom Hchat Huser Hatt w1 w2.
  assert (Hsel : selection_accepted EmptyString q w w1).
  { by apply (selection_accepted_intro env1 q w "date:"). }
  destruct Hsel as (Htrace1 & Hstate1 & Hchosen1 & Hdb1).
  split; [done|]. split; [done|].
  subst w2.
  assert (Hstate1' : conversation_state w1 (chat_id m) (id (from_user m)) = Some ASK_DOC)
    by (by rewrite Hchat, Huser).
  rewrite (process_attachment env2 m w1 Hstate1' Hatt).
  unfold receive_document. run_monad.
  unfold chosen_date in Hchosen1. rewrite Huser, Hchosen1.
  cbn [truthy]. run_monad. cbn [fst snd update_state].
  rewrite bool_decide_eq_true_2 by done.
  unfold conversation_state.
  cbn [trace db user_data conversations set_conversations add_event].
  rewrite ?Hchat, ?Huser, lookup_delete_eq, Htrace1, Hdb1, <- app_assoc. done.
Qed.

Lemma empty_date_is_accepted_then_upload_aborts_witness :
  db (process_update (Sample.env true true) (MessageUpdate (Sample.document_message 7))
        (process_update (Sample.env true true) (CallbackQueryUpdate (Sample.select 7 "date:"))
           (Sample.world 7 empty_db (Some ASK_DATE) None)))
  = empty_db.
Proof.
  destruct (empty_date_is_accepted_then_upload_aborts (Sample.env true true)
              (Sample.env true true) (Sample.world 7 empty_db (Some ASK_DATE) None)
              (Sample.select 7 "date:") (Sample.document_message 7))
    as (_ & _ & _ & Hdb & _).
  - reflexivity.
  - reflexivity.
  - intros (b & Hb & _). by apply elem_of_nil in Hb.
  - vm_compute. reflexivity.
  - reflexivity.
  - reflexivity.
  - left. by eexists.
  - exact Hdb.
Defined.

(** ** Date selection, all cases *)

Lemma matches_date_pattern_inv (data : string) :
  matches_date_pattern data = true → ∃ s, data = "date:" +:+ s.
Proof.
  unfold matches_date_pattern, String.app.
  do 5 (destruct data as [|? data]; [done|];
        cbn [String.prefix String.append];
        destruct (ascii_dec _ _) as [<-|]; [|done]).
  intros _. by exists data.
Qed.

(** X23.  The pattern the date handler is registered under makes its
    indexing safe, and its three outcomes cover every case: for a callback
    query in [ASK_DATE] whose data starts with ["date:"], the token holds a
    date [d], and the selection is rejected as already booked when the user
    has a booking for [d], rejected as fully booked when they have none and
    [d] has ten or more approved bookings, and accepted otherwise. *)
Theorem date_selection_outcomes (env : Env) (q : CallbackQuery) (w : World) (data : string) :
  conversation_state w (cq_chat_id q) (id (cq_from_user q)) = Some ASK_DATE →
  cq_data q = Some data →
  matches_date_pattern data = true →
  let w' := process_update env (CallbackQueryUpdate q) w in
  ∃ d, token_date data = Some d
       ∧ (receive_date_button env q w).1 ≠ Raise IndexError
       ∧ (has_booking (db w) (id (cq_from_user q)) d →
          selection_rejected_with (already_booked_text d) q w w')
       ∧ (¬ has_booking (db w) (id (cq_from_user q)) d →
          10 ≤ sql_count_approved d (db w) →
          selection_rejected_with (fully_booked_text d) q w w')
       ∧ (¬ has_booking (db w) (id (cq_from_user q)) d →
          sql_count_approved d (db w) < 10 →
          selection_accepted d q w w').
Proof.
  intros Hstate Hdata Hpat w'. subst w'.
  destruct (matches_date_pattern_inv data Hpat) as [s ->].
  exists (before_colon s).
  pose proof (token_date_prefixed s) as Htoken.
  pose proof (receive_date_button_run env q w _ _ Hdata Htoken) as Hrun. cbv zeta in Hrun.
  split; [done|]. split.
  { rewrite Hrun. destruct (0 <? _); [done|]. by destruct (10 <=? _). }
  split; [|split].
  - intros Hsome%user_has_booking_iff.
    apply (selection_rejected_intro env q w ("date:" +:+ s)); try done.
    by rewrite Hrun, Hsome.
  - intros Hnone%user_has_no_booking_iff Hfull%Z.leb_le.
    apply (selection_rejected_intro env q w ("date:" +:+ s)); try done.
    by rewrite Hrun, Hnone, Hfull.
  - intros Hnone Hroom. by apply (selection_accepted_intro env q w ("date:" +:+ s)).
Qed.

Lemma date_selection_outcomes_witness :
  ∃ d, token_date "date:2024-01-10" = Some d
       ∧ (receive_date_button (Sample.env true true) (Sample.select 7 "date:2024-01-10")
            (Sample.world 7 empty_db (Some ASK_DATE) None)).1 ≠ Raise IndexError.
Proof.
  destruct (date_selection_outcomes (Sample.env true true)
              (Sample.select 7 "date:2024-01-10")
              (Sample.world 7 empty_db (Some ASK_DATE) None)
              "date:2024-01-10" eq_refl eq_refl eq_refl)
    as (d & Htoken & Hraise & _).
  exists d. split; [exact Htoken|exact Hraise].
Defined.

(** ** Outside a conversation *)

(** With no conversation under way, a message that is no command matches
    no handler. *)
Lemma process_idle_message (env : Env) (m : Message) (w : World) :
  conversations w !! (chat_id m, id (from_user m)) = None →
  message_command m = None →
  process_update env (MessageUpdate m) w = w.
Proof.
  intros Hstate Hcmd.
  unfold process_update, conversation_check.
  cbn [check_update conversation_key]. rewrite Hcmd, Hstate.
  rewrite bool_decide_eq_false_2 by discriminate.
  cbn [conv_handler entry_points first_match check_update]. rewrite Hcmd.
  rewrite bool_decide_eq_false_2 by discriminate.
  unfold filters.COMMAND. rewrite Hcmd.
  by rewrite (bool_decide_eq_false_2 (is_Some None)) by (intros [? ?]; discriminate).
Qed.

(** X24.  With no conversation under way, only commands are looked at:
    text, documents, photos and button presses are dropped without a
    reply, and the world after them is the world before them. *)
Theorem idle_updates_are_dropped (env : Env) (u : Update) (w : World) :
  conversations w !! conversation_key u = None →
  (∀ m, u = MessageUpdate m → message_command m = None) →
  process_update env u w = w
  ∧ trace (process_update env u w) = trace w
  ∧ db (process_update env u w) = db w.
Proof.
  intros Hidle Hcmd.
  assert (Hsame : process_update env u w = w); [|by rewrite Hsame].
  destruct u as [m|q].
  - apply process_idle_message; [done|]. by apply Hcmd.
  - apply process_callback_unmatched. left. cbn in Hidle. by rewrite Hidle.
Qed.

Lemma idle_updates_are_dropped_witness :
  process_update (Sample.env true true) (MessageUpdate (Sample.document_message 7))
    (Sample.world 7 empty_db None (Some "2024-01-10"))
  = Sample.world 7 empty_db None (Some "2024-01-10").
Proof.
  refine (proj1 (idle_updates_are_dropped (Sample.env true true)
                   (MessageUpdate (Sample.document_message 7))
                   (Sample.world 7 empty_db None (Some "2024-01-10")) _ _)).
  - reflexivity.
  - intros m [= <-]. reflexivity.
Defined.

(** X25.  After [/cancel], an upload comes too late: with a conversation
    under way, [/cancel] followed by a document or photo of the same user
    in the same chat leaves the world as [/cancel] alone left it -- no
    booking, no reply to the upload -- although the session still holds
    the date chosen before. *)
Theorem upload_after_cancel_is_dropped (env1 env2 : Env) (w : World)
    (m_cancel m : Message) (state : Z) :
  conversation_state w (chat_id m_cancel) (id (from_user m_cancel)) = Some state →
  message_command m_cancel = Some "cancel" →
  chat_id m = chat_id m_cancel → from_user m = from_user m_cancel →
  is_Some (document m) ∨ photo m ≠ [] →
  let w1 := process_update env1 (MessageUpdate m_cancel) w in
  run_polling [(env1, MessageUpdate m_cancel); (env2, MessageUpdate m)] w = w1
  ∧ db w1 = db w
  ∧ chosen_date w1 (id (from_user m)) = chosen_date w (id (from_user m)).
Proof.
  intros Hstate Hcmd Hchat Huser Hatt w1. subst w1.
  unfold run_polling. cbn [foldl fst snd].
  rewrite (process_cancel env1 m_cancel w state Hstate Hcmd).
  split; [|done].
  apply process_idle_message.
  - cbn [conversations set_conversations]. rewrite Hchat, Huser. apply lookup_delete_eq.
  - by destruct (attachment_content m Hatt).
Qed.

Lemma upload_after_cancel_is_dropped_witness :
  db (run_polling
        [ (Sample.env true true, MessageUpdate (Sample.command 7 "cancel"));
          (Sample.env true true, MessageUpdate (Sample.document_message 7)) ]
        (Sample.world 7 empty_db (Some ASK_DOC) (Some "2024-01-10")))
  = empty_db.
Proof.
  destruct (upload_after_cancel_is_dropped (Sample.env true true) (Sample.env true true)
              (Sample.world 7 empty_db (Some ASK_DOC) (Some "2024-01-10"))
              (Sample.command 7 "cancel") (Sample.document_message 7) ASK_DOC)
    as (Hrun & Hdb & _).
  - reflexivity.
  - reflexivity.
  - reflexivity.
  - reflexivity.
  - left. by eexists.
  - rewrite Hrun. exact Hdb.
Defined.

(** ** Weekdays and the end of the calendar *)

(** X26.  Of any seven consecutive days, [is_allowed_weekday] accepts
    exactly five. *)
Theorem five_days_a_week_are_allowed (d : date) :
  length (filter (λ x, is_allowed_weekday x = true) (seqZ d 7)) = 5%nat.
Proof.
  assert (Hseq : seqZ d 7 = Z.add d <$> seqZ 0 7) by (by rewrite fmap_add_seqZ, Z.add_0_r).
  rewrite Hseq, filter_fmap_list, length_fmap.
  rewrite (list_filter_iff _ (λ i, is_allowed_weekday (d mod 7 + i) = true)).
  - pose proof (Z.mod_pos_bound d 7 ltac:(lia)) as Hr.
    assert (Hcases : d mod 7 ∈ seqZ 0 7) by (apply elem_of_seqZ; lia).
    revert Hcases. generalize (d mod 7). clear Hr. intros r Hcases.
    change (seqZ 0 7) with [0; 1; 2; 3; 4; 5; 6] in Hcases.
    repeat (apply elem_of_cons in Hcases as [->|Hcases]; [by vm_compute|]).
    by apply elem_of_nil in Hcases.
  - intros i. unfold is_allowed_weekday. by rewrite (weekday_add_mod d i).
Qed.

Lemma buttons_loop_overflow (today min_allowed : date) (pending : list Z)
    (buttons : InlineKeyboardMarkup) (i : Z) :
  i ∈ pending → in_range (today + i) = false →
  buttons_loop today min_allowed pending buttons = Raise OverflowError.
Proof.
  intros Hin Hout. revert buttons.
  induction pending as [|j pending IH]; intros buttons; [by apply elem_of_nil in Hin|].
  cbn [buttons_loop]. unfold date_add.
  destruct (in_range (today + j)) eqn:Hj; [|done].
  apply elem_of_cons in Hin as [->|Hin]; [congruence|].
  destruct (_ || _); by apply IH.
Qed.

(** X27.  The keyboard needs its whole horizon.  When the clock's date is
    a date of the calendar but the thirteenth day after it is not -- the
    last days of the year 9999 -- [generate_next_two_weeks_buttons] raises
    [OverflowError]; [/schedule] then sends nothing and the conversation
    stays where it was. *)
Theorem schedule_at_end_of_calendar_raises (env : Env) (m : Message) (w : World) :
  let today := dt_date (clock env (clock_reads w)) in
  1 ≤ today ≤ MAXORDINAL → MAXORDINAL < today + 13 →
  message_command m = Some "schedule" →
  known_state (conversations w !! (chat_id m, id (from_user m))) →
  let w' := process_update env (MessageUpdate m) w in
  (generate_next_two_weeks_buttons env w).1 = Raise OverflowError
  ∧ trace w' = trace w
  ∧ conversations w' = conversations w
  ∧ db w' = db w ∧ user_data w' = user_data w.
Proof.
  intros today Hin Hout Hcmd Hknown w'. subst w'.
  assert (Hgen : generate_next_two_weeks_buttons env w = (Raise OverflowError, tick w)).
  { unfold generate_next_two_weeks_buttons, mbind, M_bind, utcnow, lift.
    cbv beta iota zeta. fold today.
    unfold date_add at 1. destruct (in_range (today + 2)); [|done].
    rewrite (buttons_loop_overflow today _ _ _ 13); [done| |].
    - apply elem_of_seqZ. lia.
    - unfold in_range. apply andb_false_iff. right. apply Z.leb_gt. lia. }
  assert (Hrun : schedule_start env m w = (Raise OverflowError, tick w)).
  { unfold schedule_start. run_monad. by rewrite Hgen. }
  rewrite Hgen. split; [done|].
  assert (Hupd : process_update env (MessageUpdate m) w
                 = update_state (chat_id m, id (from_user m))
                     (schedule_start env m w).1 (schedule_start env m w).2).
  { destruct Hknown as [Hidle|[Hdate|Hdoc]].
    - by apply process_schedule_idle.
    - apply (process_schedule env m w ASK_DATE); auto.
    - apply (process_schedule env m w ASK_DOC); auto. }
  rewrite Hupd, Hrun. done.
Qed.

Lemma schedule_at_end_of_calendar_raises_witness :
  (generate_next_two_weeks_buttons Sample.env_end_of_calendar
     (Sample.world 7 empty_db None None)).1
  = Raise OverflowError.
Proof.
  refine (proj1 (schedule_at_end_of_calendar_raises Sample.env_end_of_calendar
                   (Sample.command 7 "schedule") (Sample.world 7 empty_db None None)
                   _ _ _ _)).
  - vm_compute. split; discriminate.
  - vm_compute. reflexivity.
  - reflexivity.
  - left. reflexivity.
Defined.
